(** * Sentieon variant calling support (bcbio/variation/sentieon.py)

    A shallow embedding of the command-construction layer for the Sentieon
    tools: the license export prefix, the interval fragment and the three
    callers (TNscope, TNhaplotyper, Haplotyper), together with the
    collaborators they call and the properties of the module's contract. *)

From Stdlib Require Import String Ascii ZArith DecimalString.
From stdpp Require Import gmap strings list.

Local Open Scope Z_scope.

(** ** Python strings

    Python 2 [str] values are byte strings; they are embedded as [string].
    [s1 +:+ s2] is concatenation. *)

Module PyString.

(** [c.upper()] on one byte: only the ASCII letters a-z change. *)
Definition upper_char (c : ascii) : ascii :=
  let n := nat_of_ascii c in
  if ((97 <=? n) && (n <=? 122))%nat then ascii_of_nat (n - 32) else c.

(** [s.upper()] *)
Fixpoint upper (s : string) : string :=
  match s with
  | EmptyString => EmptyString
  | String c s' => String (upper_char c) (upper s')
  end.

(** [s.startswith(sub)] *)
Fixpoint startswith (sub s : string) : bool :=
  match sub, s with
  | EmptyString, _ => true
  | String _ _, EmptyString => false
  | String a sub', String b s' => Ascii.eqb a b && startswith sub' s'
  end.

(** [sub in s]: [sub] occurs in [s] as a contiguous substring. *)
Fixpoint contains (sub s : string) : bool :=
  startswith sub s ||
  match s with
  | EmptyString => false
  | String _ s' => contains sub s'
  end.

(** [sep.join(l)] *)
Fixpoint join (sep : string) (l : list string) : string :=
  match l with
  | [] => EmptyString
  | [x] => x
  | x :: l' => x +:+ sep +:+ join sep l'
  end.

(** [s.split(" ")]: the fields of [s] between single spaces. *)
Fixpoint split_space (s : string) : list string :=
  match s with
  | EmptyString => [EmptyString]
  | String c s' =>
      if Ascii.eqb c " " then EmptyString :: split_space s'
      else match split_space s' with
           | [] => [String c EmptyString]
           | w :: ws => String c w :: ws
           end
  end.

(** [" " not in s] *)
Definition no_space (s : string) : bool := negb (contains " " s).

End PyString.

Import PyString.

(** ** Python values

    The configuration values the module formats with [%s] or [str.format] are
    scalars as a YAML configuration yields them. A resource entry such as
    [keyfile] is a scalar, a mapping or a list. A mapping is kept as the list
    of its items in iteration order. *)

Inductive scalar :=
| PNone
| PBool (b : bool)
| PInt (n : Z)
| PStr (s : string).

Inductive pyval :=
| PScalar (v : scalar)
| PDict (entries : list (string * scalar))
| PList (elems : list scalar).

(** [bool(v)] *)
Definition truthy_scalar (v : scalar) : bool :=
  match v with
  | PNone => false
  | PBool b => b
  | PInt n => negb (n =? 0)
  | PStr s => negb (String.eqb s EmptyString)
  end.

Definition truthy (v : pyval) : bool :=
  match v with
  | PScalar s => truthy_scalar s
  | PDict entries => negb (bool_decide (entries = []))
  | PList elems => negb (bool_decide (elems = []))
  end.

(** [str(v)], which is what ["%s" % v] and ["{v}".format(v=v)] insert. *)
Definition py_str (v : scalar) : string :=
  match v with
  | PNone => "None"
  | PBool true => "True"
  | PBool false => "False"
  | PInt n => NilZero.string_of_int (Z.to_int n)
  | PStr s => s
  end.

(** [d.get(k)]: the value, or [None] when the key is missing. *)
Definition dict_get (d : gmap string scalar) (k : string) : scalar :=
  default PNone (d !! k).

Definition resources_get (d : gmap string pyval) (k : string) : pyval :=
  default (PScalar PNone) (d !! k).

(** [k in d] *)
Definition dict_has (d : gmap string scalar) (k : string) : bool :=
  bool_decide (is_Some (d !! k)).

(** The result of [shared.subset_variant_regions]: no restriction, a string
    (normally the path of a BED file) or a (chromosome, start, end) tuple. *)
Inductive target :=
| TNone
| TStr (s : string)
| TRegion (chrom : string) (start stop : Z).

Definition truthy_target (t : target) : bool :=
  match t with
  | TNone => false
  | TStr s => negb (String.eqb s EmptyString)
  | TRegion _ _ _ => true
  end.

(** [vcfutils.PairedData], restricted to the attributes the module reads.
    An attribute is [None] when the sample is missing. *)
Record PairedData := {
  tumor_bam : scalar;
  tumor_name : scalar;
  normal_bam : scalar;
  normal_name : scalar
}.

(** ** Exceptions and results *)

Inductive exn :=
| ValueError (msg : string)
| AssertionError (msg : string)
| AssertionErrorOn (v : pyval)
| AttributeError (msg : string)
| IndexError (msg : string)
| ExecutionError (status : Z) (cmd output : string).

Inductive result (A : Type) :=
| Ok (a : A)
| Raise (e : exn).

Arguments Ok {A} a.
Arguments Raise {A} e.

(** ** The world: files and the process runner's log

    [files] maps the path of each regular file to its size; [runs] lists the
    (command, label) pairs handed to the process runner, oldest first. *)

Record world := {
  files : gmap string N;
  runs : list (string * string)
}.

(** Computations read and change the world and may raise; what was done
    before an exception stays done. *)
Definition M (A : Type) : Type := world → result A * world.

#[global] Instance M_ret : MRet M := λ A a w, (Ok a, w).

#[global] Instance M_bind : MBind M := λ A B f m w,
  match m w with
  | (Ok a, w') => f a w'
  | (Raise e, w') => (Raise e, w')
  end.

Definition raise {A} (e : exn) : M A := λ w, (Raise e, w).

Definition lift {A} (r : result A) : M A := λ w, (r, w).

(** [l[0]] *)
Definition index0 {A} (l : list A) : M A :=
  match l with
  | x :: _ => mret x
  | [] => raise (IndexError "list index out of range")
  end.

(** ** Collaborators

    The functions of other modules that the callers use. The spec fixes
    only their interface, so they are the fields of a class; the module is
    verified over every instance. *)

(** What one external process does: its exit status, its captured output and
    the files it leaves behind. *)
Record proc_result := {
  exit_status : Z;
  captured : string;
  files_after : gmap string N
}.

Class Collaborators := {
  (** a sample dictionary ([data], an element of [items]) *)
  item : Type;
  (** [data["config"]] *)
  config : Type;
  (** the variant regions of a sample *)
  regions : Type;
  (** the [region] argument of the callers *)
  region : Type;
  item_config : item → config;
  (** [config_utils.get_resources(name, config)] *)
  get_resources : string → config → gmap string pyval;
  (** [dd.get_variant_regions(data)] *)
  get_variant_regions : item → regions;
  (** [bedutils.merge_overlaps(in_file, data)] *)
  merge_overlaps : regions → item → regions;
  (** [shared.subset_variant_regions(variant_regions, region, out_file, items)] *)
  subset_variant_regions : regions → option region → string → list item → target;
  (** [bamprep.region_to_gatk(region)] *)
  region_to_gatk : target → string;
  (** [vcfutils.get_paired_bams(align_bams, items)]; [None] when unpairable *)
  get_paired_bams : list string → list item → option PairedData;
  (** [utils.splitext_plus(f)]: base and (possibly multi-part) extension *)
  splitext_plus : string → string * string;
  (** the temporary path [file_transaction] yields for a final path *)
  tx_tmp_path : item → string → string;
  (** the shell running a command line on a file system *)
  shell : string → gmap string N → proc_result
}.

Section Sentieon.

Context {C : Collaborators}.

(** Modelled from the spec: [utils.file_exists] is not in the source tree.
    Per the spec it "reports whether a regular file is already present and
    non-empty/valid enough to skip recomputation". *)
Definition file_exists (fname : string) : M bool := λ w,
  (Ok (match files w !! fname with Some size => (0 <? size)%N | None => false end), w).

(** What [file_exists] answers in world [w]. *)
Definition present (w : world) (fname : string) : bool :=
  match (file_exists fname w).1 with Ok b => b | Raise _ => false end.

(** [os.path.isfile(path)]: a regular file is present at [path]. *)
Definition isfile (path : string) : M bool := λ w,
  (Ok (bool_decide (is_Some (files w !! path))), w).

(** On normal exit of a transaction: rename temp to final. When the body
    left no temporary file there is nothing to rename. *)
Definition publish (tx final : string) (w : world) : world :=
  match files w !! tx with
  | Some size => {| files := <[final := size]> (delete tx (files w)); runs := runs w |}
  | None => w
  end.

(** On abnormal exit of a transaction: delete the temporary artifact. *)
Definition discard (tx : string) (w : world) : world :=
  {| files := delete tx (files w); runs := runs w |}.

(** Modelled from the spec: [file_transaction] is not in the source tree.
    Per the spec, "given a context and a final path, yields a temporary
    path; on normal exit, atomically renames temp→final; on abnormal exit
    (exception/error), deletes the temporary artifact and leaves no final
    file". The exception is re-raised. *)
Definition file_transaction {A} (data : item) (final : string)
    (body : string → M A) : M A := λ w,
  let tx := tx_tmp_path data final in
  match body tx w with
  | (Ok a, w') => (Ok a, publish tx final w')
  | (Raise e, w') => (Raise e, discard tx w')
  end.

(** Modelled from the spec: [do.run] is not in the source tree. Per the
    spec, "given a formatted command-line string and a human-readable
    label, executes it in a shell, streaming/logging output, and raises an
    error carrying the exit status and captured output on non-zero exit". *)
Definition do_run (cmd label : string) : M unit := λ w,
  let r := shell cmd (files w) in
  let w' := {| files := files_after r; runs := runs w ++ [(cmd, label)] |} in
  if exit_status r =? 0 then (Ok (), w')
  else (Raise (ExecutionError (exit_status r) cmd (captured r)), w').

Definition keyfile_msg : string :=
  "Need to set resources keyfile with URL:port of license server, local license file or "
  +:+ "environmental variables to export " +:+ String (ascii_of_nat 10)
  "http://bcbio-nextgen.readthedocs.io/en/latest/contents/configuration.html#resources".

(** Retrieve export statement for sentieon license server. *)
Definition license_export (data : item) : result string :=
  let resources := get_resources "sentieon" (item_config data) in
  let server := resources_get resources "keyfile" in
  if negb (truthy server) then Raise (ValueError keyfile_msg)
  else
    match server with
    | PScalar (PStr s) => Ok ("export SENTIEON_LICENSE=" +:+ s +:+ " && ")
    | PDict entries =>
        Ok (fold_left
              (λ exports '(key, val),
                 exports +:+ ("export " +:+ upper key +:+ "=" +:+ py_str val +:+ " && "))
              entries EmptyString)
    | _ => Raise (AssertionErrorOn server)
    end.

(** Retrieve interval to run analysis in. Handles no targets, BED and
    regions. *)
Definition _get_interval (variant_regions : regions) (region : option region)
    (out_file : string) (items : list item) : M string :=
  let target := subset_variant_regions variant_regions region out_file items in
  if truthy_target target then
    match target with
    | TStr path =>
        is_file ← isfile path;
        if (is_file : bool) then mret ("--interval " +:+ path)
        else mret ("--interval " +:+ region_to_gatk target)
    | _ => mret ("--interval " +:+ region_to_gatk target)
    end
  else mret EmptyString.

(** The command of [run_tnscope]: its template [cmd], formatted with the
    caller's local variables. *)
Definition tnscope_cmd (license ref_file : string) (paired : PairedData)
    (interval dbsnp tx_out_file : string) : string :=
  license +:+ "sentieon driver -t 1 -r " +:+ ref_file +:+ " "
  +:+ "-i " +:+ py_str (tumor_bam paired)
  +:+ " -i " +:+ py_str (normal_bam paired) +:+ " " +:+ interval +:+ " "
  +:+ "--algo TNscope "
  +:+ "--tumor_sample " +:+ py_str (tumor_name paired)
  +:+ " --normal_sample " +:+ py_str (normal_name paired) +:+ " "
  +:+ dbsnp +:+ " " +:+ tx_out_file.

(** Call variants with Sentieon's TNscope somatic caller. *)
Definition run_tnscope (align_bams : list string) (items : list item)
    (ref_file : string) (assoc_files : gmap string scalar)
    (region : option region) (out_file : option string) : M string :=
  out_file ← match out_file with
             | None =>
                 bam ← index0 align_bams;
                 mret ((splitext_plus bam).1 +:+ "-variants.vcf.gz")
             | Some f => mret f
             end;
  exists_ ← file_exists out_file;
  (if negb exists_ then
     data ← index0 items;
     let variant_regions := merge_overlaps (get_variant_regions data) data in
     interval ← _get_interval variant_regions region out_file items;
     file_transaction data out_file (λ tx_out_file,
       paired ← match get_paired_bams align_bams items with
                | Some paired =>
                    if truthy_scalar (normal_bam paired) then mret paired
                    else raise (AssertionError "Require normal BAM for Sentieon TNscope")
                | None => raise (AssertionError "Require normal BAM for Sentieon TNscope")
                end;
       let dbsnp := if dict_has assoc_files "dbsnp"
                    then "--dbsnp " +:+ py_str (dict_get assoc_files "dbsnp")
                    else EmptyString in
       license ← lift (license_export data);
       do_run (tnscope_cmd license ref_file paired interval dbsnp tx_out_file)
              "Sentieon TNhaplotyper")
   else mret ());;
  mret out_file.

(** The command of [run_tnhaplotyper]: its template, formatted with the
    caller's local variables. *)
Definition tnhaplotyper_cmd (license ref_file : string) (paired : PairedData)
    (interval dbsnp cosmic tx_out_file : string) : string :=
  license +:+ "sentieon driver -t 1 -r " +:+ ref_file +:+ " "
  +:+ "-i " +:+ py_str (tumor_bam paired)
  +:+ " -i " +:+ py_str (normal_bam paired) +:+ " " +:+ interval +:+ " "
  +:+ "--algo TNhaplotyper "
  +:+ "--tumor_sample " +:+ py_str (tumor_name paired)
  +:+ " --normal_sample " +:+ py_str (normal_name paired) +:+ " "
  +:+ dbsnp +:+ " " +:+ cosmic +:+ " " +:+ tx_out_file.

(** Call variants with Sentieon's TNhaplotyper (MuTect2 like). *)
Definition run_tnhaplotyper (align_bams : list string) (items : list item)
    (ref_file : string) (assoc_files : gmap string scalar)
    (region : option region) (out_file : option string) : M string :=
  out_file ← match out_file with
             | None =>
                 bam ← index0 align_bams;
                 mret ((splitext_plus bam).1 +:+ "-variants.vcf.gz")
             | Some f => mret f
             end;
  exists_ ← file_exists out_file;
  (if negb exists_ then
     data ← index0 items;
     let variant_regions := merge_overlaps (get_variant_regions data) data in
     interval ← _get_interval variant_regions region out_file items;
     file_transaction data out_file (λ tx_out_file,
       paired ← match get_paired_bams align_bams items with
                | Some paired =>
                    if truthy_scalar (normal_bam paired) then mret paired
                    else raise (AssertionError "Require normal BAM for Sentieon TNhaplotyper")
                | None =>
                    raise (AttributeError "'NoneType' object has no attribute 'normal_bam'")
                end;
       let dbsnp := if dict_has assoc_files "dbsnp"
                    then "--dbsnp " +:+ py_str (dict_get assoc_files "dbsnp")
                    else EmptyString in
       let cosmic := if dict_has assoc_files "cosmic"
                     then "--cosmic " +:+ py_str (dict_get assoc_files "cosmic")
                     else EmptyString in
       license ← lift (license_export data);
       do_run (tnhaplotyper_cmd license ref_file paired interval dbsnp cosmic tx_out_file)
              "Sentieon TNhaplotyper")
   else mret ());;
  mret out_file.

(** The command of [run_haplotyper]: its template, formatted with the
    caller's local variables. *)
Definition haplotyper_cmd (license ref_file bams interval dbsnp tx_out_file : string)
    : string :=
  license +:+ "sentieon driver -t 1 -r " +:+ ref_file +:+ " "
  +:+ bams +:+ " " +:+ interval +:+ " --algo Haplotyper "
  +:+ dbsnp +:+ " " +:+ tx_out_file.

(** Call variants with Sentieon's haplotyper (GATK HaplotypeCaller like). *)
Definition run_haplotyper (align_bams : list string) (items : list item)
    (ref_file : string) (assoc_files : gmap string scalar)
    (region : option region) (out_file : option string) : M string :=
  out_file ← match out_file with
             | None =>
                 bam ← index0 align_bams;
                 mret ((splitext_plus bam).1 +:+ "-variants.vcf.gz")
             | Some f => mret f
             end;
  exists_ ← file_exists out_file;
  (if negb exists_ then
     data ← index0 items;
     let variant_regions := merge_overlaps (get_variant_regions data) data in
     interval ← _get_interval variant_regions region out_file items;
     file_transaction data out_file (λ tx_out_file,
       let dbsnp := if dict_has assoc_files "dbsnp"
                    then "--dbsnp " +:+ py_str (dict_get assoc_files "dbsnp")
                    else EmptyString in
       let bams := join " " ((λ x, "-i " +:+ x) <$> align_bams) in
       license ← lift (license_export data);
       do_run (haplotyper_cmd license ref_file bams interval dbsnp tx_out_file)
              "Sentieon TNhaplotyper")
   else mret ());;
  mret out_file.

End Sentieon.

(** ** Statement helpers *)

Section Observations.

Context {C : Collaborators}.

(** The output path a caller works on: the one given, else the one derived
    from the first alignment file (lines 52-53, 74-75 and 97-98). *)
Definition resolved_out_file (align_bams : list string) (out_file : option string)
    : option string :=
  match out_file with
  | Some f => Some f
  | None => (λ bam, (splitext_plus bam).1 +:+ "-variants.vcf.gz") <$> head align_bams
  end.

(** The (command, label) pairs a computation hands to the process runner
    when it is run in world [w]. *)
Definition started {A} (m : M A) (w : world) : list (string * string) :=
  drop (length (runs w)) (runs (m w).2).

(** The interval fragment [_get_interval] returns in world [w]. *)
Definition interval_at (variant_regions : regions) (region : option region)
    (out_file : string) (items : list item) (w : world) : string :=
  match (_get_interval variant_regions region out_file items w).1 with
  | Ok interval => interval
  | Raise _ => EmptyString
  end.

(** [--dbsnp] and [--cosmic] fragments as the callers build them. *)
Definition dbsnp_flag (assoc_files : gmap string scalar) : string :=
  if dict_has assoc_files "dbsnp"
  then "--dbsnp " +:+ py_str (dict_get assoc_files "dbsnp")
  else EmptyString.

Definition cosmic_flag (assoc_files : gmap string scalar) : string :=
  if dict_has assoc_files "cosmic"
  then "--cosmic " +:+ py_str (dict_get assoc_files "cosmic")
  else EmptyString.

(** The world after the process runner has run [cmd] in world [w]. *)
Definition after_process (cmd : string) (w : world) : world :=
  {| files := files_after (shell cmd (files w));
     runs := runs w ++ [(cmd, "Sentieon TNhaplotyper")] |}.

(** Running [cmd] as the body of the transaction for [out]: what is
    returned or raised, and the world left behind. *)
Definition launch (data : item) (out cmd : string) (w : world) : result string * world :=
  let tx := tx_tmp_path data out in
  let r := shell cmd (files w) in
  if exit_status r =? 0 then (Ok out, publish tx out (after_process cmd w))
  else (Raise (ExecutionError (exit_status r) cmd (captured r)),
        discard tx (after_process cmd w)).

(** The three callers. *)
Definition callers
    : list (list string → list item → string → gmap string scalar →
            option region → option string → M string) :=
  [run_tnscope; run_tnhaplotyper; run_haplotyper].

(** One chained export statement of the license prefix. *)
Definition export_statement (entry : string * scalar) : string :=
  "export " +:+ upper entry.1 +:+ "=" +:+ py_str entry.2 +:+ " && ".

(** None of the values contains [sub]. *)
Definition free_of (sub : string) (values : list string) : Prop :=
  Forall (λ v, contains sub v = false) values.

End Observations.

(** ** A concrete set of collaborators

    Samples with a phenotype and their own Sentieon resources, and a shell
    whose behaviour is given; used to run the callers on examples. *)

Module Sample.

Record sample := {
  sample_name : string;
  phenotype : string;
  sentieon_resources : gmap string pyval;
  sample_regions : target
}.

(** Keeps the first tumor and the last normal of the batch; no pairing
    without a tumor. *)
Definition paired_bams (align_bams : list string) (items : list sample)
    : option PairedData :=
  let tagged := zip align_bams items in
  let tumors := filter (λ bi, phenotype bi.2 = "tumor") tagged in
  let normals := filter (λ bi, phenotype bi.2 = "normal") tagged in
  match tumors with
  | [] => None
  | (tbam, titem) :: _ =>
      Some {| tumor_bam := PStr tbam;
              tumor_name := PStr (sample_name titem);
              normal_bam := default PNone ((λ bi, PStr bi.1) <$> last normals);
              normal_name := default PNone ((λ bi, PStr (sample_name bi.2)) <$> last normals) |}
  end.

(** Scans a reversed file name for the last dot of its last component. *)
Fixpoint ext_of (reversed ext : list ascii) : option (list ascii * list ascii) :=
  match reversed with
  | [] => None
  | c :: rest =>
      if Ascii.eqb c "/" then None
      else if Ascii.eqb c "." then
        match rest with
        | [] => None
        | d :: _ => if Ascii.eqb d "/" then None else Some (rev rest, c :: ext)
        end
      else ext_of rest (c :: ext)
  end.

Definition splitext (f : string) : string * string :=
  match ext_of (rev (list_ascii_of_string f)) [] with
  | Some (base, ext) => (string_of_list_ascii base, string_of_list_ascii ext)
  | None => (f, EmptyString)
  end.

(** Splits off the extension, and one more for zipped files. *)
Definition splitext_zipped (f : string) : string * string :=
  let '(base, ext) := splitext f in
  if bool_decide (ext ∈ [".gz"; ".bz2"; ".zip"]) then
    let '(base2, ext2) := splitext base in (base2, ext2 +:+ ext)
  else (base, ext).

Definition gatk_region (t : target) : string :=
  match t with
  | TNone => "None"
  | TStr s => s
  | TRegion chrom start stop =>
      chrom +:+ ":" +:+ py_str (PInt (start + 1)) +:+ "-" +:+ py_str (PInt stop)
  end.

(** A process that writes [size] bytes to the last word of its command
    line and exits with [status]. *)
Definition writer (status : Z) (size : N) (cmd : string) (fs : gmap string N)
    : proc_result :=
  {| exit_status := status;
     captured := EmptyString;
     files_after := <[default EmptyString (last (split_space cmd)) := size]> fs |}.

Definition collaborators (sh : string → gmap string N → proc_result) : Collaborators :=
  {| item := sample;
     config := gmap string pyval;
     regions := target;
     region := string * Z * Z;
     item_config := sentieon_resources;
     get_resources := λ name cfg, if String.eqb name "sentieon" then cfg else ∅;
     get_variant_regions := sample_regions;
     merge_overlaps := λ r _, r;
     subset_variant_regions := λ r region _ _,
       match region with
       | Some (chrom, start, stop) => TRegion chrom start stop
       | None => r
       end;
     region_to_gatk := gatk_region;
     get_paired_bams := paired_bams;
     splitext_plus := splitext_zipped;
     tx_tmp_path := λ _ final, "/tx" +:+ final;
     shell := sh |}.

Definition tumor : sample :=
  {| sample_name := "T1"; phenotype := "tumor";
     sentieon_resources := {[ "keyfile" := PDict [("sentieon_license", PStr "8990@srv")] ]};
     sample_regions := TStr "/x/regions.bed" |}.

Definition normal : sample :=
  {| sample_name := "N1"; phenotype := "normal";
     sentieon_resources := {[ "keyfile" := PScalar (PStr "1234@license-server:8990") ]};
     sample_regions := TNone |}.

Definition unlicensed : sample :=
  {| sample_name := "U1"; phenotype := "tumor";
     sentieon_resources := ∅;
     sample_regions := TNone |}.

Definition disk : world :=
  {| files := {[ "/x/regions.bed" := 120%N; "/x/done-variants.vcf.gz" := 4096%N ]};
     runs := [] |}.

(** The collaborators with a process that succeeds, and with one that
    fails after writing part of its output. *)
Definition working : Collaborators := collaborators (writer 0 4096).


Definition pair_bams : list string := ["/a/t.bam"; "/a/n.bam"].

Definition pair : list sample := [tumor; normal].

(** Associated files whose dbSNP file has a misleading name. *)
Definition odd_assoc : gmap string scalar := {[ "dbsnp" := PStr "/x/--cosmic.vcf" ]}.

(** The command lines these inputs lead to. *)
Definition tnscope_line : string :=
  "export SENTIEON_LICENSE=8990@srv && sentieon driver -t 1 -r /ref.fa -i /a/t.bam -i /a/n.bam --interval /x/regions.bed --algo TNscope --tumor_sample T1 --normal_sample N1  /tx/a/t-variants.vcf.gz".

Definition tnhaplotyper_line (dbsnp : string) : string :=
  "export SENTIEON_LICENSE=8990@srv && sentieon driver -t 1 -r /ref.fa -i /a/t.bam -i /a/n.bam --interval /x/regions.bed --algo TNhaplotyper --tumor_sample T1 --normal_sample N1 --dbsnp "
  +:+ dbsnp +:+ "  /tx/a/t-variants.vcf.gz".

Definition haplotyper_line : string :=
  "export SENTIEON_LICENSE=8990@srv && sentieon driver -t 1 -r /ref.fa -i /a/t.bam -i /a/n.bam --interval /x/regions.bed --algo Haplotyper --dbsnp None /tx/a/t-variants.vcf.gz".

(** The disk with an empty file already at the output path of [pair_bams],
    as an interrupted earlier run leaves it. *)
Definition stale_disk : world :=
  {| files := <["/a/t-variants.vcf.gz" := 0%N]> (files disk); runs := runs disk |}.



(** Associated files whose entries are bound to None. *)
Definition none_assoc : gmap string scalar := {[ "dbsnp" := PNone; "cosmic" := PNone ]}.

Definition tnscope_line_none : string :=
  "export SENTIEON_LICENSE=8990@srv && sentieon driver -t 1 -r /ref.fa -i /a/t.bam -i /a/n.bam --interval /x/regions.bed --algo TNscope --tumor_sample T1 --normal_sample N1 --dbsnp None /tx/a/t-variants.vcf.gz".

Definition tnhaplotyper_line_none : string :=
  "export SENTIEON_LICENSE=8990@srv && sentieon driver -t 1 -r /ref.fa -i /a/t.bam -i /a/n.bam --interval /x/regions.bed --algo TNhaplotyper --tumor_sample T1 --normal_sample N1 --dbsnp None --cosmic None /tx/a/t-variants.vcf.gz".

End Sample.

(** * Properties *)

(** ** Strings *)

Section StringFacts.

Implicit Types (sub s a b : string) (c : ascii).

Lemma sapp_nil b : EmptyString +:+ b = b.
Proof. reflexivity. Qed.

Lemma sapp_cons c a b : String c a +:+ b = String c (a +:+ b).
Proof. reflexivity. Qed.

Lemma sapp_empty_r s : s +:+ EmptyString = s.
Proof. induction s as [|c s IH]; [done |]. by rewrite sapp_cons, IH. Qed.

Lemma sapp_assoc a b s : (a +:+ b) +:+ s = a +:+ (b +:+ s).
Proof. induction a as [|c a IH]; [done |]. by rewrite !sapp_cons, IH. Qed.

Lemma startswith_refl_app sub b : startswith sub (sub +:+ b) = true.
Proof.
  induction sub as [|c sub IH]; [done |].
  rewrite sapp_cons. simpl. by rewrite Ascii.eqb_refl, IH.
Qed.

Lemma startswith_app_l sub a b :
  startswith sub a = true → startswith sub (a +:+ b) = true.
Proof.
  revert a. induction sub as [|c sub IH]; intros [|d a]; try done.
  rewrite sapp_cons. simpl.
  intros [Hcd Hsub]%andb_prop. rewrite Hcd. simpl. by apply IH.
Qed.

Lemma contains_empty s : contains EmptyString s = true.
Proof. by destruct s. Qed.

Lemma contains_cons sub c s :
  contains sub (String c s) = startswith sub (String c s) || contains sub s.
Proof. done. Qed.

Lemma contains_app_l sub a b :
  contains sub a = true → contains sub (a +:+ b) = true.
Proof.
  induction a as [|c a IH].
  - destruct sub; [intros _; apply contains_empty | done].
  - rewrite sapp_cons, !contains_cons. intros [Hs | Hc]%orb_prop.
    + rewrite <- sapp_cons. by rewrite (startswith_app_l _ _ _ Hs).
    + rewrite (IH Hc). apply orb_true_r.
Qed.

Lemma contains_app_r sub a b :
  contains sub b = true → contains sub (a +:+ b) = true.
Proof.
  intros Hb. induction a as [|c a IH]; [done |].
  rewrite sapp_cons, contains_cons, IH. apply orb_true_r.
Qed.

(** The fragment itself, wherever it is interpolated. *)
Lemma contains_here sub b : contains sub (sub +:+ b) = true.
Proof.
  destruct sub as [|c sub]; [apply contains_empty |].
  rewrite sapp_cons, contains_cons, <- sapp_cons.
  by rewrite startswith_refl_app.
Qed.

Lemma contains_self sub : contains sub sub = true.
Proof. rewrite <- (sapp_empty_r sub) at 2. apply contains_here. Qed.

Lemma no_space_cons c s :
  no_space (String c s) = negb (Ascii.eqb " " c) && no_space s.
Proof.
  unfold no_space. rewrite contains_cons. simpl.
  rewrite andb_true_r. apply negb_orb.
Qed.

(** A word without spaces cannot straddle a space. *)
Lemma startswith_before_space sub a b :
  no_space sub = true →
  startswith sub (a +:+ String " " b) = startswith sub a.
Proof.
  revert a. induction sub as [|c sub IH]; intros a Hns; [by destruct a |].
  rewrite no_space_cons in Hns. apply andb_prop in Hns as [Hc Hsub].
  destruct a as [|d a].
  - rewrite sapp_nil. simpl. rewrite Ascii.eqb_sym. by destruct (Ascii.eqb " " c).
  - rewrite sapp_cons. simpl. by rewrite IH.
Qed.

Lemma contains_app_space sub a b :
  no_space sub = true →
  contains sub (a +:+ String " " b) = contains sub a || contains sub b.
Proof.
  intros Hns. induction a as [|d a IH].
  - rewrite sapp_nil, contains_cons.
    rewrite <- (sapp_nil (String " " b)).
    rewrite (startswith_before_space sub EmptyString b Hns).
    by destruct sub.
  - rewrite sapp_cons, !contains_cons, IH, <- sapp_cons.
    rewrite (startswith_before_space sub (String d a) b Hns).
    by rewrite orb_assoc.
Qed.

Lemma split_space_nonempty s : split_space s ≠ [].
Proof.
  destruct s as [|c s]; simpl; [done |].
  destruct (Ascii.eqb c " "); [done |]. by destruct (split_space s).
Qed.

Lemma split_space_app a b :
  split_space (a +:+ String " " b) = split_space a ++ split_space b.
Proof.
  induction a as [|c a IH]; [done |].
  rewrite sapp_cons. simpl.
  rewrite IH. destruct (Ascii.eqb c " "); [done |].
  pose proof (split_space_nonempty a) as Hne.
  by destruct (split_space a).
Qed.

Lemma split_space_word s : no_space s = true → split_space s = [s].
Proof.
  induction s as [|c s IH]; [done |].
  rewrite no_space_cons. intros [Hc Hs]%andb_prop. simpl.
  rewrite Ascii.eqb_sym. destruct (Ascii.eqb " " c); [done |].
  by rewrite (IH Hs).
Qed.

(** The words of ["-i a -i b ..."]. *)
Lemma split_space_bams (l : list string) :
  l ≠ [] →
  split_space (join " " ((λ x, "-i " +:+ x) <$> l))
  = flat_map (λ x, "-i" :: split_space x) l.
Proof.
  induction l as [|x l IH]; [done |]. intros _.
  destruct l as [|y l].
  - simpl join. change ("-i " +:+ x) with ("-i" +:+ String " " x).
    rewrite split_space_app. simpl. by rewrite app_nil_r.
  - change (join " " ((λ x, "-i " +:+ x) <$> x :: y :: l))
      with (("-i " +:+ x) +:+ String " " (join " " ((λ x, "-i " +:+ x) <$> y :: l))).
    rewrite split_space_app, IH by done.
    change ("-i " +:+ x) with ("-i" +:+ String " " x).
    by rewrite split_space_app.
Qed.

(** A word without spaces occurs in a blank-separated line only inside
    one of its fields. *)
Lemma contains_join sub (fields : list string) :
  no_space sub = true → fields ≠ [] →
  contains sub (join " " fields) = existsb (contains sub) fields.
Proof.
  intros Hns. induction fields as [|x l IH]; [done |]. intros _.
  destruct l as [|y l].
  - simpl. by rewrite orb_false_r.
  - change (join " " (x :: y :: l)) with (x +:+ String " " (join " " (y :: l))).
    rewrite (contains_app_space _ _ _ Hns), IH by done. done.
Qed.

Lemma split_space_join (fields : list string) :
  fields ≠ [] →
  split_space (join " " fields) = flat_map split_space fields.
Proof.
  induction fields as [|x l IH]; [done |]. intros _.
  destruct l as [|y l].
  - simpl. by rewrite app_nil_r.
  - change (join " " (x :: y :: l)) with (x +:+ String " " (join " " (y :: l))).
    by rewrite split_space_app, IH.
Qed.

Lemma free_of_cons sub (v : string) (values : list string) :
  free_of sub (v :: values) ↔ contains sub v = false ∧ free_of sub values.
Proof. unfold free_of. by rewrite Forall_cons. Qed.

Lemma free_before_blank sub body :
  contains sub (body +:+ " ") = false → contains sub body = false.
Proof.
  intros Hfree. destruct (contains sub body) eqn:Hbody; [| done].
  by rewrite (contains_app_l _ _ _ Hbody) in Hfree.
Qed.

End StringFacts.

(** ** The license export prefix *)

Section LicenseFacts.

Context {C : Collaborators}.

Lemma fold_exports (entries : list (string * scalar)) (acc : string) :
  fold_left
    (λ exports '(key, val),
       exports +:+ ("export " +:+ upper key +:+ "=" +:+ py_str val +:+ " && "))
    entries acc
  = acc +:+ foldr (λ e rest, export_statement e +:+ rest) EmptyString entries.
Proof.
  revert acc. induction entries as [|[key val] entries IH]; intros acc; simpl.
  - by rewrite sapp_empty_r.
  - rewrite IH. unfold export_statement at 2. simpl. by rewrite !sapp_assoc.
Qed.

Lemma license_export_dict (data : item) (entries : list (string * scalar)) :
  resources_get (get_resources "sentieon" (item_config data)) "keyfile" = PDict entries →
  entries ≠ [] →
  license_export data
  = Ok (foldr (λ e rest, export_statement e +:+ rest) EmptyString entries).
Proof.
  intros Hkey Hne. unfold license_export. rewrite Hkey. simpl.
  rewrite bool_decide_eq_false_2 by done. simpl.
  by rewrite fold_exports.
Qed.

Lemma license_export_falsy (data : item) :
  truthy (resources_get (get_resources "sentieon" (item_config data)) "keyfile") = false →
  license_export data = Raise (ValueError keyfile_msg).
Proof. intros Hf. unfold license_export. by rewrite Hf. Qed.

Lemma fold_exports_ends_blank (entries : list (string * scalar)) (acc : string) :
  (∃ body, acc = body +:+ " ") →
  ∃ body,
    fold_left
      (λ exports '(key, val),
         exports +:+ ("export " +:+ upper key +:+ "=" +:+ py_str val +:+ " && "))
      entries acc
    = body +:+ " ".
Proof.
  revert acc. induction entries as [|[key val] entries IH]; intros acc Hacc; [done |].
  simpl. apply IH.
  exists (acc +:+ "export " +:+ upper key +:+ "=" +:+ py_str val +:+ " &&").
  by rewrite !sapp_assoc.
Qed.

(** Every export prefix ends with the separator's blank. *)
Lemma license_export_ends_blank (data : item) (license : string) :
  license_export data = Ok license → ∃ body, license = body +:+ " ".
Proof.
  unfold license_export.
  destruct (truthy _) eqn:Ht; [simpl | done].
  destruct (resources_get _ _) as [[| | |s]|entries|] eqn:Hkey; try done.
  - intros [= <-]. exists ("export SENTIEON_LICENSE=" +:+ s +:+ " &&").
    by rewrite !sapp_assoc.
  - intros [= <-]. destruct entries as [|[key val] entries]; [done |].
    simpl. apply fold_exports_ends_blank.
    exists ("export " +:+ upper key +:+ "=" +:+ py_str val +:+ " &&").
    by rewrite !sapp_assoc.
Qed.

(** C1 (amended). For a license configuration whose keyfile is a
    non-empty mapping, license_export returns one export statement per
    entry, in the mapping's iteration order, each with its key upper-cased,
    its value rendered unchanged and the chaining separator " && " at its
    end. For the mapping {"sentieon_license": "8990@srv"} the result is
    exactly "export SENTIEON_LICENSE=8990@srv && ". *)
Theorem license_export_mapping (data : item) (entries : list (string * scalar)) :
  resources_get (get_resources "sentieon" (item_config data)) "keyfile" = PDict entries →
  entries ≠ [] →
  license_export data
  = Ok (foldr (λ e rest, export_statement e +:+ rest) EmptyString entries)
  ∧ (∀ key val,
       export_statement (key, PStr val) = "export " +:+ upper key +:+ "=" +:+ val +:+ " && ")
  ∧ (entries = [("sentieon_license", PStr "8990@srv")] →
     license_export data = Ok "export SENTIEON_LICENSE=8990@srv && ").
Proof.
  intros Hkey Hne. split; [by apply license_export_dict |]. split; [done |].
  intros ->. by rewrite (license_export_dict data _ Hkey Hne).
Qed.

(** *** Further properties of the license export *)

Lemma fold_exports_ends_separator (entries : list (string * scalar)) (acc : string) :
  (∃ body, acc = body +:+ " && ") →
  ∃ body,
    fold_left
      (λ exports '(key, val),
         exports +:+ ("export " +:+ upper key +:+ "=" +:+ py_str val +:+ " && "))
      entries acc
    = body +:+ " && ".
Proof.
  revert acc. induction entries as [|[key val] entries IH]; intros acc Hacc; [done |].
  simpl. apply IH.
  exists (acc +:+ "export " +:+ upper key +:+ "=" +:+ py_str val).
  by rewrite !sapp_assoc.
Qed.

(** X1. What license_export does is decided by the shape of the keyfile
    entry alone: it raises the configuration ValueError exactly when the
    entry is absent or falsy; a non-empty string s gives
    "export SENTIEON_LICENSE=s && " with s verbatim; a truthy value that is
    neither a string nor a mapping raises an assertion error carrying that
    value; and it succeeds exactly for non-empty strings and non-empty
    mappings. *)
Theorem license_export_outcomes (data : item) :
  let server := resources_get (get_resources "sentieon" (item_config data)) "keyfile" in
  (license_export data = Raise (ValueError keyfile_msg) ↔ truthy server = false)
  ∧ (∀ s, server = PScalar (PStr s) → s ≠ EmptyString →
          license_export data = Ok ("export SENTIEON_LICENSE=" +:+ s +:+ " && "))
  ∧ (truthy server = true →
     (∀ s, server ≠ PScalar (PStr s)) → (∀ entries, server ≠ PDict entries) →
     license_export data = Raise (AssertionErrorOn server))
  ∧ ((∃ license, license_export data = Ok license)
     ↔ (∃ s, server = PScalar (PStr s) ∧ s ≠ EmptyString)
       ∨ (∃ entries, server = PDict entries ∧ entries ≠ [])).
Proof.
  intros server. unfold license_export. fold server.
  split; [| split; [| split]].
  - destruct (truthy server) eqn:Htruthy; cbn [negb]; [| done].
    split; [| done]. by destruct server as [[| | |?]| |].
  - intros s -> Hs. cbn [truthy truthy_scalar].
    destruct (String.eqb_spec s EmptyString); done.
  - intros -> Hstr Hdict. cbn [negb].
    destruct server as [[| | |s]|entries|]; try done.
    + by destruct (Hstr s).
    + by destruct (Hdict entries).
  - split.
    + intros [license Hlicense].
      destruct server as [[| |n|s]|entries|elems]; cbn in Hlicense.
      * done.
      * by destruct b.
      * by destruct (n =? 0).
      * left. exists s. split; [done |]. intros ->. done.
      * right. exists entries. split; [done |]. intros ->. done.
      * by destruct (bool_decide (elems = [])).
    + intros [(s & -> & Hs) | (entries & -> & Hentries)].
      * cbn [truthy truthy_scalar].
        destruct (String.eqb_spec s EmptyString); [done |]. by eexists.
      * cbn [truthy]. rewrite bool_decide_eq_false_2 by done. by eexists.
Qed.

(** X2. Every license prefix that license_export returns begins with
    "export " and ends with the chaining separator " && ", so it is never
    empty and the command that follows it is always chained with "&&". *)
Theorem license_export_shape (data : item) (license : string) :
  license_export data = Ok license →
  (∃ rest, license = "export " +:+ rest) ∧ (∃ body, license = body +:+ " && ").
Proof.
  unfold license_export.
  destruct (truthy _) eqn:Ht; [cbn [negb] | done].
  destruct (resources_get _ _) as [[| | |s]|entries|] eqn:Hkey; try done.
  - intros [= <-]. split.
    + by exists ("SENTIEON_LICENSE=" +:+ s +:+ " && ").
    + exists ("export SENTIEON_LICENSE=" +:+ s). by rewrite !sapp_assoc.
  - intros [= <-]. destruct entries as [|[key val] entries]; [done |]. split.
    + rewrite fold_exports. cbn [foldr]. unfold export_statement at 1.
      cbn [fst snd]. rewrite sapp_nil. eexists. by rewrite !sapp_assoc.
    + cbn [fold_left]. apply fold_exports_ends_separator.
      exists ("export " +:+ upper key +:+ "=" +:+ py_str val).
      by rewrite !sapp_assoc.
Qed.

End LicenseFacts.

(** ** The interval fragment *)

Section IntervalFacts.

Context {C : Collaborators}.

(** Resolving the interval reads the file system and nothing else. *)
Lemma get_interval_pure (variant_regions : regions) (region : option region)
    (out_file : string) (items : list item) (w : world) :
  ∃ interval, _get_interval variant_regions region out_file items w = (Ok interval, w).
Proof.
  unfold _get_interval, isfile, mbind, M_bind, mret, M_ret.
  destruct (truthy_target _); [| by eexists].
  destruct (subset_variant_regions _ _ _ _); try by eexists.
  simpl. destruct (bool_decide _); by eexists.
Qed.

(** C5. _get_interval returns the empty string when the reconciled
    region-subsetting result is falsy; "--interval <path>" when that result
    is a string naming a file that exists on disk; and otherwise
    "--interval " followed by the region formatter's rendering of the
    result. It leaves the world as it was. *)
Theorem get_interval_fragment (variant_regions : regions) (region : option region)
    (out_file : string) (items : list item) (w : world) :
  let target := subset_variant_regions variant_regions region out_file items in
  let fragment := _get_interval variant_regions region out_file items w in
  (truthy_target target = false → fragment = (Ok EmptyString, w))
  ∧ (∀ path, target = TStr path → truthy_target target = true →
             is_Some (files w !! path) →
             fragment = (Ok ("--interval " +:+ path), w))
  ∧ (truthy_target target = true →
     (∀ path, target = TStr path → files w !! path = None) →
     fragment = (Ok ("--interval " +:+ region_to_gatk target), w)).
Proof.
  intros target fragment. unfold fragment, _get_interval. fold target.
  unfold isfile, mbind, M_bind, mret, M_ret.
  split; [by intros -> |]. split.
  - intros path Htarget -> Hfile. rewrite Htarget.
    cbn beta iota. cbn [files]. by rewrite bool_decide_eq_true_2.
  - intros -> Hnofile. destruct target as [|path|]; [done | | done].
    cbn beta iota. rewrite bool_decide_eq_false_2; [done |].
    rewrite (Hnofile path eq_refl). by intros [? ?].
Qed.

(** X3. _get_interval never raises and never changes the world; the
    fragment it returns is empty exactly when the reconciled target is
    falsy, and otherwise it is "--interval " followed by a region
    specification. *)
Theorem interval_fragment_shape (variant_regions : regions) (region : option region)
    (out_file : string) (items : list item) (w : world) :
  ∃ fragment,
    _get_interval variant_regions region out_file items w = (Ok fragment, w)
    ∧ (fragment = EmptyString
       ↔ truthy_target (subset_variant_regions variant_regions region out_file items)
         = false)
    ∧ (fragment = EmptyString ∨ ∃ spec, fragment = "--interval " +:+ spec).
Proof.
  unfold _get_interval, isfile, mbind, M_bind, mret, M_ret.
  destruct (truthy_target _) eqn:Htruthy.
  - destruct (subset_variant_regions _ _ _ _) as [|path|chrom start stop];
      cbn beta iota; try destruct (bool_decide _);
      eexists; (split; [reflexivity |]); (split; [by split | right; by eexists]).
  - eexists. split; [reflexivity |]. split; [by split | by left].
Qed.

End IntervalFacts.

(** ** The callers *)

Ltac unfold_callers :=
  unfold run_tnscope, run_tnhaplotyper, run_haplotyper, file_transaction, do_run,
    file_exists, lift, raise, index0, mbind, M_bind, mret, M_ret in *.

Section CallerFacts.

Context {C : Collaborators}.

Implicit Types (align_bams : list string) (items : list item) (ref_file : string)
  (assoc_files : gmap string scalar) (region : option region)
  (out_file : option string) (w : world).

(** *** Symbolic execution of the callers

    Each caller, run in a world [w], written out as the decision tree of
    its outcomes. *)

Lemma interval_at_eq (variant_regions : regions) region (out : string) items w :
  _get_interval variant_regions region out items w
  = (Ok (interval_at variant_regions region out items w), w).
Proof.
  unfold interval_at.
  destruct (get_interval_pure variant_regions region out items w) as [i Hi].
  by rewrite Hi.
Qed.

Ltac run_steps out_file align_bams items w :=
  unfold resolved_out_file, present, launch, after_process, dbsnp_flag, cosmic_flag;
  unfold_callers;
  (destruct out_file; [| destruct align_bams]);
  cbn [fmap option_fmap option_map head]; cbn beta iota; try done;
  (destruct (files w !! _) as [size|]; [destruct (0 <? size)%N |]);
  cbn [negb fst snd]; cbn beta iota; try done;
  destruct items; cbn beta iota; try done;
  rewrite interval_at_eq; cbn beta iota;
  try (destruct (get_paired_bams _ _); [destruct (truthy_scalar _) |]);
  cbn beta iota; try done;
  destruct (license_export _); cbn beta iota; try done;
  destruct (exit_status _ =? 0); done.

Lemma run_tnscope_steps align_bams items ref_file assoc_files region out_file w :
  run_tnscope align_bams items ref_file assoc_files region out_file w =
  match resolved_out_file align_bams out_file with
  | None => (Raise (IndexError "list index out of range"), w)
  | Some out =>
      if present w out then (Ok out, w)
      else
        match items with
        | [] => (Raise (IndexError "list index out of range"), w)
        | data :: _ =>
            let tx := tx_tmp_path data out in
            let interval :=
              interval_at (merge_overlaps (get_variant_regions data) data)
                region out items w in
            match get_paired_bams align_bams items with
            | Some paired =>
                if truthy_scalar (normal_bam paired) then
                  match license_export data with
                  | Ok license =>
                      launch data out
                        (tnscope_cmd license ref_file paired interval
                           (dbsnp_flag assoc_files) tx) w
                  | Raise e => (Raise e, discard tx w)
                  end
                else (Raise (AssertionError "Require normal BAM for Sentieon TNscope"),
                      discard tx w)
            | None => (Raise (AssertionError "Require normal BAM for Sentieon TNscope"),
                       discard tx w)
            end
        end
  end.
Proof. run_steps out_file align_bams items w. Qed.

Lemma run_tnhaplotyper_steps align_bams items ref_file assoc_files region out_file w :
  run_tnhaplotyper align_bams items ref_file assoc_files region out_file w =
  match resolved_out_file align_bams out_file with
  | None => (Raise (IndexError "list index out of range"), w)
  | Some out =>
      if present w out then (Ok out, w)
      else
        match items with
        | [] => (Raise (IndexError "list index out of range"), w)
        | data :: _ =>
            let tx := tx_tmp_path data out in
            let interval :=
              interval_at (merge_overlaps (get_variant_regions data) data)
                region out items w in
            match get_paired_bams align_bams items with
            | Some paired =>
                if truthy_scalar (normal_bam paired) then
                  match license_export data with
                  | Ok license =>
                      launch data out
                        (tnhaplotyper_cmd license ref_file paired interval
                           (dbsnp_flag assoc_files) (cosmic_flag assoc_files) tx) w
                  | Raise e => (Raise e, discard tx w)
                  end
                else (Raise (AssertionError "Require normal BAM for Sentieon TNhaplotyper"),
                      discard tx w)
            | None =>
                (Raise (AttributeError "'NoneType' object has no attribute 'normal_bam'"),
                 discard tx w)
            end
        end
  end.
Proof. run_steps out_file align_bams items w. Qed.

Lemma run_haplotyper_steps align_bams items ref_file assoc_files region out_file w :
  run_haplotyper align_bams items ref_file assoc_files region out_file w =
  match resolved_out_file align_bams out_file with
  | None => (Raise (IndexError "list index out of range"), w)
  | Some out =>
      if present w out then (Ok out, w)
      else
        match items with
        | [] => (Raise (IndexError "list index out of range"), w)
        | data :: _ =>
            let tx := tx_tmp_path data out in
            let interval :=
              interval_at (merge_overlaps (get_variant_regions data) data)
                region out items w in
            match license_export data with
            | Ok license =>
                launch data out
                  (haplotyper_cmd license ref_file
                     (join " " ((λ x, "-i " +:+ x) <$> align_bams)) interval
                     (dbsnp_flag assoc_files) tx) w
            | Raise e => (Raise e, discard tx w)
            end
        end
  end.
Proof. run_steps out_file align_bams items w. Qed.

(** *** What a transaction leaves behind *)

Lemma runs_publish tx out w : runs (publish tx out w) = runs w.
Proof. unfold publish. by destruct (files w !! tx). Qed.

Lemma runs_discard tx w : runs (discard tx w) = runs w.
Proof. done. Qed.

Lemma started_same {A} (m : M A) w : runs (m w).2 = runs w → started m w = [].
Proof. unfold started. intros ->. apply drop_all. Qed.

Lemma started_one {A} (m : M A) w (run : string * string) :
  runs (m w).2 = runs w ++ [run] → started m w = [run].
Proof. unfold started. intros ->. by rewrite drop_app_length. Qed.

Lemma launch_runs data out cmd w :
  runs (launch data out cmd w).2 = runs w ++ [(cmd, "Sentieon TNhaplotyper")].
Proof.
  unfold launch. destruct (exit_status _ =? 0); simpl;
    by rewrite ?runs_publish, ?runs_discard.
Qed.


(** *** The command a caller starts

    A caller starts at most one process, and only after the output was
    found missing, the pairing checked and the license resolved. *)

Lemma started_by_launch (m : M string) w data out cmd0 (run : string * string) :
  m w = launch data out cmd0 w →
  run ∈ started m w → run = (cmd0, "Sentieon TNhaplotyper").
Proof.
  intros Hm. rewrite (started_one m w (cmd0, "Sentieon TNhaplotyper")).
  - by intros ->%list_elem_of_singleton.
  - rewrite Hm. apply launch_runs.
Qed.

Lemma not_started {A} (m : M A) w (res : result A) w' (run : string * string) :
  m w = (res, w') → runs w' = runs w → run ∈ started m w → False.
Proof.
  intros Hm Hruns. rewrite (started_same m w); [by intros ?%elem_of_nil |].
  by rewrite Hm.
Qed.

Ltac no_process :=
  match goal with
  | Hin : _ ∈ started _ _ |- _ =>
      exfalso; eapply not_started; [eassumption | | exact Hin]; done
  end.

Lemma run_tnscope_started align_bams items ref_file assoc_files region out_file w
    (cmd label : string) :
  (cmd, label) ∈ started (run_tnscope align_bams items ref_file assoc_files region out_file) w →
  ∃ out data license paired,
    resolved_out_file align_bams out_file = Some out
    ∧ present w out = false
    ∧ head items = Some data
    ∧ get_paired_bams align_bams items = Some paired
    ∧ truthy_scalar (normal_bam paired) = true
    ∧ license_export data = Ok license
    ∧ cmd = tnscope_cmd license ref_file paired
              (interval_at (merge_overlaps (get_variant_regions data) data)
                 region out items w)
              (dbsnp_flag assoc_files) (tx_tmp_path data out)
    ∧ label = "Sentieon TNhaplotyper"
    ∧ run_tnscope align_bams items ref_file assoc_files region out_file w
      = launch data out cmd w.
Proof.
  intros Hin.
  pose proof (run_tnscope_steps align_bams items ref_file assoc_files region out_file w)
    as Hsteps.
  destruct (resolved_out_file align_bams out_file) as [out|]; [| no_process].
  destruct (present w out) eqn:Hpresent; [no_process |].
  destruct items as [|data rest]; [no_process |]. simpl in Hsteps.
  destruct (get_paired_bams align_bams (data :: rest)) as [paired|] eqn:Hpaired;
    [| no_process].
  destruct (truthy_scalar (normal_bam paired)) eqn:Hnormal; [| no_process].
  destruct (license_export data) as [license|e] eqn:Hlicense; [| no_process].
  apply (started_by_launch _ _ _ _ _ _ Hsteps) in Hin. simplify_eq.
  by exists out, data, license, paired.
Qed.

Lemma run_tnhaplotyper_started align_bams items ref_file assoc_files region out_file w
    (cmd label : string) :
  (cmd, label)
    ∈ started (run_tnhaplotyper align_bams items ref_file assoc_files region out_file) w →
  ∃ out data license paired,
    resolved_out_file align_bams out_file = Some out
    ∧ present w out = false
    ∧ head items = Some data
    ∧ get_paired_bams align_bams items = Some paired
    ∧ truthy_scalar (normal_bam paired) = true
    ∧ license_export data = Ok license
    ∧ cmd = tnhaplotyper_cmd license ref_file paired
              (interval_at (merge_overlaps (get_variant_regions data) data)
                 region out items w)
              (dbsnp_flag assoc_files) (cosmic_flag assoc_files) (tx_tmp_path data out)
    ∧ label = "Sentieon TNhaplotyper"
    ∧ run_tnhaplotyper align_bams items ref_file assoc_files region out_file w
      = launch data out cmd w.
Proof.
  intros Hin.
  pose proof (run_tnhaplotyper_steps align_bams items ref_file assoc_files region out_file w)
    as Hsteps.
  destruct (resolved_out_file align_bams out_file) as [out|]; [| no_process].
  destruct (present w out) eqn:Hpresent; [no_process |].
  destruct items as [|data rest]; [no_process |]. simpl in Hsteps.
  destruct (get_paired_bams align_bams (data :: rest)) as [paired|] eqn:Hpaired;
    [| no_process].
  destruct (truthy_scalar (normal_bam paired)) eqn:Hnormal; [| no_process].
  destruct (license_export data) as [license|e] eqn:Hlicense; [| no_process].
  apply (started_by_launch _ _ _ _ _ _ Hsteps) in Hin. simplify_eq.
  by exists out, data, license, paired.
Qed.

Lemma run_haplotyper_started align_bams items ref_file assoc_files region out_file w
    (cmd label : string) :
  (cmd, label)
    ∈ started (run_haplotyper align_bams items ref_file assoc_files region out_file) w →
  ∃ out data license,
    resolved_out_file align_bams out_file = Some out
    ∧ present w out = false
    ∧ head items = Some data
    ∧ license_export data = Ok license
    ∧ cmd = haplotyper_cmd license ref_file
              (join " " ((λ x, "-i " +:+ x) <$> align_bams))
              (interval_at (merge_overlaps (get_variant_regions data) data)
                 region out items w)
              (dbsnp_flag assoc_files) (tx_tmp_path data out)
    ∧ label = "Sentieon TNhaplotyper"
    ∧ run_haplotyper align_bams items ref_file assoc_files region out_file w
      = launch data out cmd w.
Proof.
  intros Hin.
  pose proof (run_haplotyper_steps align_bams items ref_file assoc_files region out_file w)
    as Hsteps.
  destruct (resolved_out_file align_bams out_file) as [out|]; [| no_process].
  destruct (present w out) eqn:Hpresent; [no_process |].
  destruct items as [|data rest]; [no_process |]. simpl in Hsteps.
  destruct (license_export data) as [license|e] eqn:Hlicense; [| no_process].
  apply (started_by_launch _ _ _ _ _ _ Hsteps) in Hin. simplify_eq.
  by exists out, data, license.
Qed.

(** *** Idempotence on an existing output *)

Ltac each_caller :=
  unfold callers; repeat apply Forall_cons_2; [| | | apply Forall_nil_2].

(** C2 (amended). When the resolved output path already exists as a
    non-empty file (the existence check of the callers answers true for
    it), each of run_tnscope, run_tnhaplotyper and run_haplotyper returns
    that path unchanged and leaves the world as it was: the process runner
    is never called. *)
Theorem existing_output_short_circuits
    align_bams items ref_file assoc_files region out_file w (out : string) :
  resolved_out_file align_bams out_file = Some out →
  present w out = true →
  Forall (λ run,
            run align_bams items ref_file assoc_files region out_file w = (Ok out, w)
            ∧ started (run align_bams items ref_file assoc_files region out_file) w = [])
         callers.
Proof.
  intros Hout Hpresent.
  assert (∀ m : M string, m w = (Ok out, w) → m w = (Ok out, w) ∧ started m w = [])
    as Hquiet.
  { intros m Hm. split; [done |]. apply started_same. by rewrite Hm. }
  each_caller; apply Hquiet.
  - by rewrite run_tnscope_steps, Hout, Hpresent.
  - by rewrite run_tnhaplotyper_steps, Hout, Hpresent.
  - by rewrite run_haplotyper_steps, Hout, Hpresent.
Qed.

(** *** The derived output path *)

Lemma resolved_derived (bam : string) (rest : list string) :
  resolved_out_file (bam :: rest) None
  = resolved_out_file (bam :: rest)
      (Some ((splitext_plus bam).1 +:+ "-variants.vcf.gz")).
Proof. done. Qed.

Lemma launch_returns data out cmd w (p : string) :
  (launch data out cmd w).1 = Ok p → p = out.
Proof. unfold launch. destruct (_ =? _); simpl; congruence. Qed.

(** C4. With no explicit output path and a non-empty alignment list, each
    caller works on the path derived from the first alignment file: the
    base that splitext_plus splits off that file's path (the path without
    its possibly multi-part extension), followed by "-variants.vcf.gz".
    The call is the same as the call given that path explicitly, the path
    returned on success is that path, and it depends on the first
    alignment's path only. *)
Theorem derived_output_path
    (bam : string) (rest : list string) items ref_file assoc_files region w :
  let derived := (splitext_plus bam).1 +:+ "-variants.vcf.gz" in
  resolved_out_file (bam :: rest) None = Some derived
  ∧ (∀ base ext, splitext_plus bam = (base, ext) → derived = base +:+ "-variants.vcf.gz")
  ∧ Forall (λ run,
              run (bam :: rest) items ref_file assoc_files region None w
              = run (bam :: rest) items ref_file assoc_files region (Some derived) w
              ∧ (∀ p, (run (bam :: rest) items ref_file assoc_files region None w).1 = Ok p →
                      p = derived)
              ∧ (present w derived = true →
                 run (bam :: rest) items ref_file assoc_files region None w
                 = (Ok derived, w)))
           callers.
Proof.
  intros derived. split; [done |].
  split; [intros base ext Hsplit; unfold derived; by rewrite Hsplit |].
  each_caller.
  - rewrite !run_tnscope_steps, resolved_derived. fold derived. simpl.
    split; [done |]. split; [| by intros ->].
    intros p. destruct (present w derived); [by intros [= <-] |].
    destruct items as [|data ?]; [done |]. simpl.
    destruct (get_paired_bams _ _) as [paired|]; [| done].
    destruct (truthy_scalar _); [| done].
    destruct (license_export data); [| done]. apply launch_returns.
  - rewrite !run_tnhaplotyper_steps, resolved_derived. fold derived. simpl.
    split; [done |]. split; [| by intros ->].
    intros p. destruct (present w derived); [by intros [= <-] |].
    destruct items as [|data ?]; [done |]. simpl.
    destruct (get_paired_bams _ _) as [paired|]; [| done].
    destruct (truthy_scalar _); [| done].
    destruct (license_export data); [| done]. apply launch_returns.
  - rewrite !run_haplotyper_steps, resolved_derived. fold derived. simpl.
    split; [done |]. split; [| by intros ->].
    intros p. destruct (present w derived); [by intros [= <-] |].
    destruct items as [|data ?]; [done |]. simpl.
    destruct (license_export data); [| done]. apply launch_returns.
Qed.

(** *** Failures *)

Lemma present_discard tx w (out : string) :
  present w out = false → present (discard tx w) out = false.
Proof.
  unfold present, file_exists, discard. cbn [fst files].
  destruct (decide (tx = out)) as [-> | Hne].
  - by rewrite lookup_delete_eq.
  - by rewrite lookup_delete_ne.
Qed.

Lemma started_nil_or_in {A} (m : M A) w :
  started m w = [] ∨ ∃ cmd label, (cmd, label) ∈ started m w.
Proof.
  destruct (started m w) as [|[cmd label] l]; [by left | right].
  exists cmd, label. apply list_elem_of_here.
Qed.

(** The temporary output path is what each command ends with, after a
    blank. *)
Lemma last_word_app (front tx : string) :
  last (split_space (front +:+ String " " tx)) = last (split_space tx).
Proof.
  rewrite split_space_app, last_app.
  pose proof (split_space_nonempty tx) as Hne.
  destruct (last (split_space tx)) eqn:Hlast; [done |].
  by apply last_None in Hlast.
Qed.

Lemma tnscope_cmd_last_word license ref_file paired (interval dbsnp tx : string) :
  last (split_space (tnscope_cmd license ref_file paired interval dbsnp tx))
  = last (split_space tx).
Proof.
  unfold tnscope_cmd. rewrite <- !sapp_assoc.
  rewrite (sapp_assoc _ " " tx). apply last_word_app.
Qed.

Lemma tnhaplotyper_cmd_last_word license ref_file paired
    (interval dbsnp cosmic tx : string) :
  last (split_space (tnhaplotyper_cmd license ref_file paired interval dbsnp cosmic tx))
  = last (split_space tx).
Proof.
  unfold tnhaplotyper_cmd. rewrite <- !sapp_assoc.
  rewrite (sapp_assoc _ " " tx). apply last_word_app.
Qed.

Lemma haplotyper_cmd_last_word (license ref_file bams interval dbsnp tx : string) :
  last (split_space (haplotyper_cmd license ref_file bams interval dbsnp tx))
  = last (split_space tx).
Proof.
  unfold haplotyper_cmd. rewrite <- !sapp_assoc.
  rewrite (sapp_assoc _ " " tx). apply last_word_app.
Qed.



(** C8. When the resources of "sentieon" have no keyfile entry, or a falsy
    one, license_export raises the configuration ValueError; no caller
    starts a process; and a caller that reaches the license step (missing
    output and, for the paired callers, a pairing with a normal BAM) raises
    that ValueError. *)
Theorem missing_keyfile_stops_before_process
    align_bams items ref_file assoc_files region out_file w (data : item) :
  head items = Some data →
  truthy (resources_get (get_resources "sentieon" (item_config data)) "keyfile") = false →
  license_export data = Raise (ValueError keyfile_msg)
  ∧ Forall (λ run,
              started (run align_bams items ref_file assoc_files region out_file) w = []
              ∧ runs (run align_bams items ref_file assoc_files region out_file w).2
                = runs w)
           callers
  ∧ (∀ out, resolved_out_file align_bams out_file = Some out →
            present w out = false →
            (run_haplotyper align_bams items ref_file assoc_files region out_file w).1
            = Raise (ValueError keyfile_msg)
            ∧ (∀ paired, get_paired_bams align_bams items = Some paired →
                         truthy_scalar (normal_bam paired) = true →
                 (run_tnscope align_bams items ref_file assoc_files region out_file w).1
                 = Raise (ValueError keyfile_msg)
                 ∧ (run_tnhaplotyper align_bams items ref_file assoc_files region
                      out_file w).1
                   = Raise (ValueError keyfile_msg))).
Proof.
  intros Hdata Hfalsy.
  pose proof (license_export_falsy data Hfalsy) as Hlicense.
  destruct items as [|data' rest]; simplify_eq/=.
  split; [done |]. split.
  - assert (∀ m : M string, runs (m w).2 = runs w →
                            started m w = [] ∧ runs (m w).2 = runs w) as Hquiet.
    { intros m Hm. split; [by apply started_same | done]. }
    each_caller; apply Hquiet.
    + rewrite run_tnscope_steps.
      destruct (resolved_out_file _ _) as [out|]; [| done].
      destruct (present w out); [done |]. cbn beta iota zeta.
      destruct (get_paired_bams _ _) as [paired|]; [| done].
      destruct (truthy_scalar _); [| done]. by rewrite Hlicense.
    + rewrite run_tnhaplotyper_steps.
      destruct (resolved_out_file _ _) as [out|]; [| done].
      destruct (present w out); [done |]. cbn beta iota zeta.
      destruct (get_paired_bams _ _) as [paired|]; [| done].
      destruct (truthy_scalar _); [| done]. by rewrite Hlicense.
    + rewrite run_haplotyper_steps.
      destruct (resolved_out_file _ _) as [out|]; [| done].
      destruct (present w out); [done |]. cbn beta iota zeta.
      by rewrite Hlicense.
  - intros out Hout Habsent. split.
    + rewrite run_haplotyper_steps, Hout, Habsent. cbn beta iota zeta.
      by rewrite Hlicense.
    + intros paired Hpaired Hnormal. split.
      * rewrite run_tnscope_steps, Hout, Habsent. cbn beta iota zeta.
        by rewrite Hpaired, Hnormal, Hlicense.
      * rewrite run_tnhaplotyper_steps, Hout, Habsent. cbn beta iota zeta.
        by rewrite Hpaired, Hnormal, Hlicense.
Qed.

(** *** The precondition of the paired callers *)

(** X11. A pairing without a normal BAM stops both paired callers with an
    assertion error, before any process and with nothing published. *)
Lemma paired_callers_require_normal
    align_bams items ref_file assoc_files region out_file w
    (out : string) (data : item) (paired : PairedData) :
  resolved_out_file align_bams out_file = Some out →
  present w out = false →
  head items = Some data →
  get_paired_bams align_bams items = Some paired →
  truthy_scalar (normal_bam paired) = false →
  run_tnscope align_bams items ref_file assoc_files region out_file w
  = (Raise (AssertionError "Require normal BAM for Sentieon TNscope"),
     discard (tx_tmp_path data out) w)
  ∧ run_tnhaplotyper align_bams items ref_file assoc_files region out_file w
    = (Raise (AssertionError "Require normal BAM for Sentieon TNhaplotyper"),
       discard (tx_tmp_path data out) w).
Proof.
  intros Hout Habsent Hdata Hpaired Hnormal.
  destruct items as [|data' rest]; simplify_eq/=.
  rewrite run_tnscope_steps, run_tnhaplotyper_steps, Hout, Habsent.
  cbn beta iota zeta. by rewrite Hpaired, Hnormal.
Qed.

(** C3 (where the code departs from it). When the pairing extractor
    returns None, run_tnscope raises its assertion error, but
    run_tnhaplotyper raises an AttributeError: its assertion reads the
    normal_bam attribute of None. In both callers no process is started
    and nothing is published at the output path. *)
Theorem unpaired_input_raises
    align_bams items ref_file assoc_files region out_file w
    (out : string) (data : item) :
  resolved_out_file align_bams out_file = Some out →
  present w out = false →
  head items = Some data →
  get_paired_bams align_bams items = None →
  run_tnhaplotyper align_bams items ref_file assoc_files region out_file w
  = (Raise (AttributeError "'NoneType' object has no attribute 'normal_bam'"),
     discard (tx_tmp_path data out) w)
  ∧ run_tnscope align_bams items ref_file assoc_files region out_file w
    = (Raise (AssertionError "Require normal BAM for Sentieon TNscope"),
       discard (tx_tmp_path data out) w)
  ∧ started (run_tnhaplotyper align_bams items ref_file assoc_files region out_file) w = []
  ∧ started (run_tnscope align_bams items ref_file assoc_files region out_file) w = []
  ∧ present (discard (tx_tmp_path data out) w) out = false.
Proof.
  intros Hout Habsent Hdata Hpaired.
  destruct items as [|data' rest]; simplify_eq/=.
  assert (run_tnhaplotyper align_bams (data :: rest) ref_file assoc_files region out_file w
          = (Raise (AttributeError "'NoneType' object has no attribute 'normal_bam'"),
             discard (tx_tmp_path data out) w)) as Hhaplo.
  { rewrite run_tnhaplotyper_steps, Hout, Habsent. cbn beta iota zeta.
    by rewrite Hpaired. }
  assert (run_tnscope align_bams (data :: rest) ref_file assoc_files region out_file w
          = (Raise (AssertionError "Require normal BAM for Sentieon TNscope"),
             discard (tx_tmp_path data out) w)) as Hscope.
  { rewrite run_tnscope_steps, Hout, Habsent. cbn beta iota zeta.
    by rewrite Hpaired. }
  split; [done |]. split; [done |].
  split; [apply started_same; by rewrite Hhaplo |].
  split; [apply started_same; by rewrite Hscope |].
  by apply present_discard.
Qed.

(** *** The flags of the associated files *)

Lemma dbsnp_flag_present assoc_files (v : scalar) :
  assoc_files !! "dbsnp" = Some v → dbsnp_flag assoc_files = "--dbsnp " +:+ py_str v.
Proof.
  intros Hv. unfold dbsnp_flag, dict_has, dict_get. rewrite Hv.
  by rewrite bool_decide_eq_true_2.
Qed.

Lemma cosmic_flag_present assoc_files (v : scalar) :
  assoc_files !! "cosmic" = Some v → cosmic_flag assoc_files = "--cosmic " +:+ py_str v.
Proof.
  intros Hv. unfold cosmic_flag, dict_has, dict_get. rewrite Hv.
  by rewrite bool_decide_eq_true_2.
Qed.

Lemma dbsnp_flag_absent assoc_files :
  assoc_files !! "dbsnp" = None → dbsnp_flag assoc_files = EmptyString.
Proof.
  intros Hv. unfold dbsnp_flag, dict_has. rewrite Hv.
  rewrite bool_decide_eq_false_2; [done | by intros [? ?]].
Qed.

Lemma cosmic_flag_absent assoc_files :
  assoc_files !! "cosmic" = None → cosmic_flag assoc_files = EmptyString.
Proof.
  intros Hv. unfold cosmic_flag, dict_has. rewrite Hv.
  rewrite bool_decide_eq_false_2; [done | by intros [? ?]].
Qed.

Ltac find_fragment := repeat first [apply contains_here | apply contains_app_r].

Lemma tnscope_cmd_has_dbsnp license ref_file paired (interval dbsnp tx : string) :
  contains dbsnp (tnscope_cmd license ref_file paired interval dbsnp tx) = true.
Proof. unfold tnscope_cmd. find_fragment. Qed.

Lemma tnhaplotyper_cmd_has_dbsnp license ref_file paired
    (interval dbsnp cosmic tx : string) :
  contains dbsnp (tnhaplotyper_cmd license ref_file paired interval dbsnp cosmic tx) = true.
Proof. unfold tnhaplotyper_cmd. find_fragment. Qed.

Lemma tnhaplotyper_cmd_has_cosmic license ref_file paired
    (interval dbsnp cosmic tx : string) :
  contains cosmic (tnhaplotyper_cmd license ref_file paired interval dbsnp cosmic tx) = true.
Proof. unfold tnhaplotyper_cmd. find_fragment. Qed.

Lemma haplotyper_cmd_has_dbsnp (license ref_file bams interval dbsnp tx : string) :
  contains dbsnp (haplotyper_cmd license ref_file bams interval dbsnp tx) = true.
Proof. unfold haplotyper_cmd. find_fragment. Qed.

(** The command of run_tnhaplotyper is the blank-separated line of its
    literal words and interpolated values. *)
Lemma tnhaplotyper_cmd_fields body ref_file paired (interval dbsnp cosmic tx : string) :
  tnhaplotyper_cmd (body +:+ " ") ref_file paired interval dbsnp cosmic tx
  = join " " [body; "sentieon"; "driver"; "-t"; "1"; "-r"; ref_file;
              "-i"; py_str (tumor_bam paired); "-i"; py_str (normal_bam paired);
              interval; "--algo"; "TNhaplotyper";
              "--tumor_sample"; py_str (tumor_name paired);
              "--normal_sample"; py_str (normal_name paired);
              dbsnp; cosmic; tx].
Proof. unfold tnhaplotyper_cmd. by rewrite sapp_assoc. Qed.

Lemma haplotyper_cmd_fields body (ref_file bams interval dbsnp tx : string) :
  haplotyper_cmd (body +:+ " ") ref_file bams interval dbsnp tx
  = join " " [body; "sentieon"; "driver"; "-t"; "1"; "-r"; ref_file;
              bams; interval; "--algo"; "Haplotyper"; dbsnp; tx].
Proof. unfold haplotyper_cmd. by rewrite sapp_assoc. Qed.

(** A flag that no interpolated value contains is not in the command. *)
Lemma tnhaplotyper_cmd_free sub license ref_file paired
    (interval dbsnp cosmic tx : string) :
  no_space sub = true →
  forallb (λ word, negb (contains sub word))
    ["sentieon"; "driver"; "-t"; "1"; "-r"; "-i"; "--algo"; "TNhaplotyper";
     "--tumor_sample"; "--normal_sample"] = true →
  (∃ body, license = body +:+ " ") →
  free_of sub [license; ref_file; py_str (tumor_bam paired); py_str (normal_bam paired);
               interval; py_str (tumor_name paired); py_str (normal_name paired);
               dbsnp; cosmic; tx] →
  contains sub (tnhaplotyper_cmd license ref_file paired interval dbsnp cosmic tx) = false.
Proof.
  intros Hns Hwords [body ->] Hfree.
  rewrite tnhaplotyper_cmd_fields, contains_join by done.
  repeat (apply free_of_cons in Hfree as [? Hfree]).
  cbn [forallb] in Hwords.
  repeat (apply andb_prop in Hwords as [?%negb_true_iff Hwords]).
  cbn [existsb].
  repeat match goal with Heq : contains sub _ = false |- _ =>
    first [apply free_before_blank in Heq | idtac]; rewrite Heq; clear Heq end.
  done.
Qed.

(** C7 (amended). In every command run_tnhaplotyper builds, a "dbsnp"
    key bound to path p yields the fragment "--dbsnp p" and a "cosmic" key
    bound to path p yields "--cosmic p". When the "cosmic" key is absent
    its fragment is empty, and the command does not contain "--cosmic"
    unless one of the values interpolated into it (license prefix,
    reference, BAM paths, sample names, interval, dbsnp fragment, temporary
    output path) contains it; likewise for an absent "dbsnp" key and
    "--dbsnp". *)
Theorem tnhaplotyper_assoc_flags
    align_bams items ref_file assoc_files region out_file w (cmd label : string) :
  (cmd, label)
    ∈ started (run_tnhaplotyper align_bams items ref_file assoc_files region out_file) w →
  ∃ (out : string) (data : item) license paired,
    let interval := interval_at (merge_overlaps (get_variant_regions data) data)
                      region out items w in
    let tx := tx_tmp_path data out in
    resolved_out_file align_bams out_file = Some out
    ∧ head items = Some data
    ∧ license_export data = Ok license
    ∧ get_paired_bams align_bams items = Some paired
    ∧ cmd = tnhaplotyper_cmd license ref_file paired interval
              (dbsnp_flag assoc_files) (cosmic_flag assoc_files) tx
    ∧ (∀ p, assoc_files !! "dbsnp" = Some (PStr p) →
            contains ("--dbsnp " +:+ p) cmd = true)
    ∧ (∀ p, assoc_files !! "cosmic" = Some (PStr p) →
            contains ("--cosmic " +:+ p) cmd = true)
    ∧ (assoc_files !! "cosmic" = None →
       cosmic_flag assoc_files = EmptyString
       ∧ (free_of "--cosmic"
            [license; ref_file; py_str (tumor_bam paired); py_str (normal_bam paired);
             interval; py_str (tumor_name paired); py_str (normal_name paired);
             dbsnp_flag assoc_files; tx] →
          contains "--cosmic" cmd = false))
    ∧ (assoc_files !! "dbsnp" = None →
       dbsnp_flag assoc_files = EmptyString
       ∧ (free_of "--dbsnp"
            [license; ref_file; py_str (tumor_bam paired); py_str (normal_bam paired);
             interval; py_str (tumor_name paired); py_str (normal_name paired);
             cosmic_flag assoc_files; tx] →
          contains "--dbsnp" cmd = false)).
Proof.
  intros (out & data & license & paired & Hout & _ & Hdata & Hpaired & _ & Hlicense
          & -> & _ & _)%run_tnhaplotyper_started.
  exists out, data, license, paired. cbn zeta.
  do 5 (split; [done |]).
  pose proof (license_export_ends_blank data license Hlicense) as Hblank.
  split; [| split; [| split]].
  - intros p Hp. rewrite (dbsnp_flag_present _ _ Hp).
    apply tnhaplotyper_cmd_has_dbsnp.
  - intros p Hp. rewrite (cosmic_flag_present _ _ Hp).
    apply tnhaplotyper_cmd_has_cosmic.
  - intros Hnone. rewrite (cosmic_flag_absent _ Hnone). split; [done |].
    intros Hfree. apply tnhaplotyper_cmd_free; [done | done | done |].
    repeat (apply free_of_cons in Hfree as [? Hfree]).
    repeat (apply free_of_cons; split; [done |]). apply Forall_nil_2.
  - intros Hnone. rewrite (dbsnp_flag_absent _ Hnone). split; [done |].
    intros Hfree. apply tnhaplotyper_cmd_free; [done | done | done |].
    repeat (apply free_of_cons in Hfree as [? Hfree]).
    repeat (apply free_of_cons; split; [done |]). apply Forall_nil_2.
Qed.

(** A caller that finds its output missing, its first sample licensed and
    (for the paired callers) a pairing with a normal BAM starts exactly its
    command, whatever the associated files hold. *)
Lemma run_tnscope_launches align_bams items ref_file assoc_files region out_file w
    (out : string) (data : item) (license : string) (paired : PairedData) :
  resolved_out_file align_bams out_file = Some out →
  present w out = false →
  head items = Some data →
  license_export data = Ok license →
  get_paired_bams align_bams items = Some paired →
  truthy_scalar (normal_bam paired) = true →
  started (run_tnscope align_bams items ref_file assoc_files region out_file) w
  = [(tnscope_cmd license ref_file paired
        (interval_at (merge_overlaps (get_variant_regions data) data) region out items w)
        (dbsnp_flag assoc_files) (tx_tmp_path data out),
      "Sentieon TNhaplotyper")].
Proof.
  intros Hout Habsent Hdata Hlicense Hpaired Hnormal.
  destruct items as [|data' rest]; simplify_eq/=.
  apply started_one. rewrite run_tnscope_steps, Hout, Habsent. cbn beta iota zeta.
  rewrite Hpaired, Hnormal, Hlicense. apply launch_runs.
Qed.

Lemma run_tnhaplotyper_launches align_bams items ref_file assoc_files region out_file w
    (out : string) (data : item) (license : string) (paired : PairedData) :
  resolved_out_file align_bams out_file = Some out →
  present w out = false →
  head items = Some data →
  license_export data = Ok license →
  get_paired_bams align_bams items = Some paired →
  truthy_scalar (normal_bam paired) = true →
  started (run_tnhaplotyper align_bams items ref_file assoc_files region out_file) w
  = [(tnhaplotyper_cmd license ref_file paired
        (interval_at (merge_overlaps (get_variant_regions data) data) region out items w)
        (dbsnp_flag assoc_files) (cosmic_flag assoc_files) (tx_tmp_path data out),
      "Sentieon TNhaplotyper")].
Proof.
  intros Hout Habsent Hdata Hlicense Hpaired Hnormal.
  destruct items as [|data' rest]; simplify_eq/=.
  apply started_one. rewrite run_tnhaplotyper_steps, Hout, Habsent. cbn beta iota zeta.
  rewrite Hpaired, Hnormal, Hlicense. apply launch_runs.
Qed.

Lemma run_haplotyper_launches align_bams items ref_file assoc_files region out_file w
    (out : string) (data : item) (license : string) :
  resolved_out_file align_bams out_file = Some out →
  present w out = false →
  head items = Some data →
  license_export data = Ok license →
  started (run_haplotyper align_bams items ref_file assoc_files region out_file) w
  = [(haplotyper_cmd license ref_file (join " " ((λ x, "-i " +:+ x) <$> align_bams))
        (interval_at (merge_overlaps (get_variant_regions data) data) region out items w)
        (dbsnp_flag assoc_files) (tx_tmp_path data out),
      "Sentieon TNhaplotyper")].
Proof.
  intros Hout Habsent Hdata Hlicense.
  destruct items as [|data' rest]; simplify_eq/=.
  apply started_one. rewrite run_haplotyper_steps, Hout, Habsent. cbn beta iota zeta.
  rewrite Hlicense. apply launch_runs.
Qed.

(** C10. Whether a flag is emitted depends only on the key being in the
    associated-files mapping. A caller whose output is missing, whose first
    sample is licensed and (for the paired callers) whose pairing has a
    normal BAM builds and starts its command whatever value the key is
    bound to, falsy or not, and that command contains "--dbsnp " followed
    by the string rendering of the value ("--dbsnp None" for None); the
    same holds for "cosmic" in run_tnhaplotyper. For an absent key the
    fragment is empty. *)
Theorem flag_follows_membership
    align_bams items ref_file assoc_files region out_file w
    (out : string) (data : item) (license : string) :
  resolved_out_file align_bams out_file = Some out →
  present w out = false →
  head items = Some data →
  license_export data = Ok license →
  let interval :=
    interval_at (merge_overlaps (get_variant_regions data) data) region out items w in
  let tx := tx_tmp_path data out in
  (∀ v, assoc_files !! "dbsnp" = Some v →
        dbsnp_flag assoc_files = "--dbsnp " +:+ py_str v
        ∧ (∃ cmd,
             started (run_haplotyper align_bams items ref_file assoc_files region out_file) w
             = [(cmd, "Sentieon TNhaplotyper")]
             ∧ cmd = haplotyper_cmd license ref_file
                       (join " " ((λ x, "-i " +:+ x) <$> align_bams)) interval
                       ("--dbsnp " +:+ py_str v) tx
             ∧ contains ("--dbsnp " +:+ py_str v) cmd = true)
        ∧ (∀ paired, get_paired_bams align_bams items = Some paired →
                     truthy_scalar (normal_bam paired) = true →
             (∃ cmd,
                started (run_tnscope align_bams items ref_file assoc_files region out_file) w
                = [(cmd, "Sentieon TNhaplotyper")]
                ∧ cmd = tnscope_cmd license ref_file paired interval
                          ("--dbsnp " +:+ py_str v) tx
                ∧ contains ("--dbsnp " +:+ py_str v) cmd = true)
             ∧ (∃ cmd,
                  started (run_tnhaplotyper align_bams items ref_file assoc_files region
                             out_file) w
                  = [(cmd, "Sentieon TNhaplotyper")]
                  ∧ cmd = tnhaplotyper_cmd license ref_file paired interval
                            ("--dbsnp " +:+ py_str v) (cosmic_flag assoc_files) tx
                  ∧ contains ("--dbsnp " +:+ py_str v) cmd = true)))
  ∧ (∀ v, assoc_files !! "cosmic" = Some v →
        cosmic_flag assoc_files = "--cosmic " +:+ py_str v
        ∧ (∀ paired, get_paired_bams align_bams items = Some paired →
                     truthy_scalar (normal_bam paired) = true →
             ∃ cmd,
               started (run_tnhaplotyper align_bams items ref_file assoc_files region
                          out_file) w
               = [(cmd, "Sentieon TNhaplotyper")]
               ∧ cmd = tnhaplotyper_cmd license ref_file paired interval
                         (dbsnp_flag assoc_files) ("--cosmic " +:+ py_str v) tx
               ∧ contains ("--cosmic " +:+ py_str v) cmd = true))
  ∧ (assoc_files !! "dbsnp" = None → dbsnp_flag assoc_files = EmptyString)
  ∧ (assoc_files !! "cosmic" = None → cosmic_flag assoc_files = EmptyString)
  ∧ "--dbsnp " +:+ py_str PNone = "--dbsnp None"
  ∧ "--cosmic " +:+ py_str PNone = "--cosmic None".
Proof.
  intros Hout Habsent Hdata Hlicense interval tx.
  split; [| split; [| split; [| split; [| by split]]]].
  - intros v Hv. pose proof (dbsnp_flag_present _ _ Hv) as Hflag.
    split; [done |]. split.
    + eexists. split; [by apply run_haplotyper_launches |].
      rewrite Hflag. split; [done |]. apply haplotyper_cmd_has_dbsnp.
    + intros paired Hpaired Hnormal. split.
      * eexists. split; [by eapply run_tnscope_launches |].
        rewrite Hflag. split; [done |]. apply tnscope_cmd_has_dbsnp.
      * eexists. split; [by eapply run_tnhaplotyper_launches |].
        rewrite Hflag. split; [done |]. apply tnhaplotyper_cmd_has_dbsnp.
  - intros v Hv. pose proof (cosmic_flag_present _ _ Hv) as Hflag.
    split; [done |]. intros paired Hpaired Hnormal.
    eexists. split; [by eapply run_tnhaplotyper_launches |].
    rewrite Hflag. split; [done |]. apply tnhaplotyper_cmd_has_cosmic.
  - apply dbsnp_flag_absent.
  - apply cosmic_flag_absent.
Qed.

(** *** The alignment inputs of the germline caller *)

Lemma bam_words (align_bams : list string) :
  Forall (λ x, no_space x = true) align_bams →
  flat_map (λ x, "-i" :: split_space x) align_bams
  = flat_map (λ x, ["-i"; x]) align_bams.
Proof.
  induction 1 as [|x l Hx _ IH]; [done |].
  simpl. by rewrite (split_space_word x Hx), IH.
Qed.

(** C9. Every command run_haplotyper builds for a non-empty alignment list
    is its template filled with the fragment "-i <path>" of each alignment
    file, joined by blanks in the order of the input list: split at blanks,
    that fragment reads -i, first path, -i, second path and so on, and the
    whole command reads license exports, sentieon driver -t 1 -r reference,
    those words, the interval, --algo Haplotyper, the dbsnp flag and the
    temporary output path. *)
Theorem haplotyper_bam_flags
    align_bams items ref_file assoc_files region out_file w (cmd label : string) :
  align_bams ≠ [] →
  (cmd, label)
    ∈ started (run_haplotyper align_bams items ref_file assoc_files region out_file) w →
  ∃ (out : string) (data : item) license,
    let bams := join " " ((λ x, "-i " +:+ x) <$> align_bams) in
    let interval := interval_at (merge_overlaps (get_variant_regions data) data)
                      region out items w in
    let tx := tx_tmp_path data out in
    resolved_out_file align_bams out_file = Some out
    ∧ head items = Some data
    ∧ license_export data = Ok license
    ∧ cmd = haplotyper_cmd license ref_file bams interval (dbsnp_flag assoc_files) tx
    ∧ split_space bams = flat_map (λ x, "-i" :: split_space x) align_bams
    ∧ (Forall (λ x, no_space x = true) align_bams →
       split_space bams = flat_map (λ x, ["-i"; x]) align_bams)
    ∧ split_space cmd
      = removelast (split_space license)
        ++ ["sentieon"; "driver"; "-t"; "1"; "-r"] ++ split_space ref_file
        ++ flat_map (λ x, "-i" :: split_space x) align_bams
        ++ split_space interval ++ ["--algo"; "Haplotyper"]
        ++ split_space (dbsnp_flag assoc_files) ++ split_space tx
    ∧ contains "--algo Haplotyper" cmd = true.
Proof.
  intros Hne (out & data & license & Hout & _ & Hdata & Hlicense & -> & _ & _)
    %run_haplotyper_started.
  exists out, data, license. cbn zeta.
  do 4 (split; [done |]).
  pose proof (split_space_bams align_bams Hne) as Hbams.
  split; [done |]. split; [intros Hwords; by rewrite Hbams, bam_words |]. split.
  - destruct (license_export_ends_blank data license Hlicense) as [body ->].
    rewrite haplotyper_cmd_fields, split_space_join by done.
    cbn [flat_map]. rewrite Hbams.
    rewrite (split_space_app body EmptyString).
    change (split_space EmptyString) with [EmptyString].
    rewrite removelast_last. simpl. by rewrite app_nil_r.
  - unfold haplotyper_cmd.
    repeat first [ apply contains_app_l; reflexivity | apply contains_app_r ].
Qed.

(** *** Further properties of the callers *)

Ltac caller_cases items :=
  destruct (resolved_out_file _ _) as [out|] eqn:Hout;
  [ destruct (present _ out) eqn:Hpresent;
    [| destruct items as [|data rest]; cbn beta iota zeta;
       [| try (destruct (get_paired_bams _ _) as [paired|] eqn:Hpaired;
               [destruct (truthy_scalar _) eqn:Hnormal |]);
          try destruct (license_export _) as [license|e] eqn:Hlicense ] ]
  |].

Lemma one_run_or_none (m : M string) w :
  (runs (m w).2 = runs w
   ∨ ∃ cmd, runs (m w).2 = runs w ++ [(cmd, "Sentieon TNhaplotyper")]) →
  runs (m w).2 = runs w ++ started m w
  ∧ (started m w = [] ∨ ∃ cmd, started m w = [(cmd, "Sentieon TNhaplotyper")]).
Proof.
  intros [Hsame | [cmd Hone]].
  - rewrite (started_same m w Hsame), app_nil_r. split; [done | by left].
  - rewrite (started_one m w _ Hone). split; [done | right; by exists cmd].
Qed.

(** X4. A call to any of the three callers only appends to the process
    runner's log, and appends at most one command; whichever caller
    started it, the command is labelled "Sentieon TNhaplotyper". *)
Theorem callers_start_at_most_one_process
    align_bams items ref_file assoc_files region out_file w :
  Forall (λ run,
            runs (run align_bams items ref_file assoc_files region out_file w).2
            = runs w ++ started (run align_bams items ref_file assoc_files region out_file) w
            ∧ (started (run align_bams items ref_file assoc_files region out_file) w = []
               ∨ ∃ cmd, started (run align_bams items ref_file assoc_files region out_file) w
                        = [(cmd, "Sentieon TNhaplotyper")]))
         callers.
Proof.
  each_caller; apply one_run_or_none.
  - rewrite run_tnscope_steps. caller_cases items; try (by left).
    right. eexists. apply launch_runs.
  - rewrite run_tnhaplotyper_steps. caller_cases items; try (by left).
    right. eexists. apply launch_runs.
  - rewrite run_haplotyper_steps. caller_cases items; try (by left).
    right. eexists. apply launch_runs.
Qed.

(** X5. Empty inputs raise IndexError and leave the world untouched: an
    empty alignment list when no output path is given, and an empty sample
    list when the output is missing. *)
Theorem empty_inputs_raise_index_error
    align_bams items ref_file assoc_files region out_file w :
  Forall (λ run,
            run [] items ref_file assoc_files region None w
            = (Raise (IndexError "list index out of range"), w)
            ∧ (∀ out, resolved_out_file align_bams out_file = Some out →
                      present w out = false →
                      run align_bams [] ref_file assoc_files region out_file w
                      = (Raise (IndexError "list index out of range"), w)))
         callers.
Proof.
  each_caller; (split; [| intros out Hout Habsent]).
  - by rewrite run_tnscope_steps.
  - by rewrite run_tnscope_steps, Hout, Habsent.
  - by rewrite run_tnhaplotyper_steps.
  - by rewrite run_tnhaplotyper_steps, Hout, Habsent.
  - by rewrite run_haplotyper_steps.
  - by rewrite run_haplotyper_steps, Hout, Habsent.
Qed.

Lemma launch_success data out cmd w (size : N) :
  exit_status (shell cmd (files w)) = 0 →
  files_after (shell cmd (files w)) !! tx_tmp_path data out = Some size →
  (0 < size)%N →
  (launch data out cmd w).1 = Ok out
  ∧ present (launch data out cmd w).2 out = true
  ∧ files (launch data out cmd w).2 !! out = Some size.
Proof.
  intros Hstatus Hwritten Hsize. unfold launch. rewrite Hstatus. cbn [Z.eqb fst snd].
  unfold publish, after_process. cbn [files]. rewrite Hwritten.
  unfold present, file_exists. cbn [files fst]. rewrite lookup_insert_eq.
  split; [done |]. split; [by apply N.ltb_lt | done].
Qed.

(** X6. Running a caller twice: when the process of the first call exits
    with status 0 and has left a non-empty file at the temporary path, the
    call returns the output path, the file is published at that path, and
    the same call repeated in the resulting world returns the same path
    without starting a process or changing anything. *)
Theorem successful_run_is_idempotent
    align_bams items ref_file assoc_files region out_file w
    (out : string) (data : item) (cmd label : string) (size : N) :
  resolved_out_file align_bams out_file = Some out →
  head items = Some data →
  exit_status (shell cmd (files w)) = 0 →
  files_after (shell cmd (files w)) !! tx_tmp_path data out = Some size →
  (0 < size)%N →
  Forall (λ run,
            (cmd, label)
              ∈ started (run align_bams items ref_file assoc_files region out_file) w →
            let after := run align_bams items ref_file assoc_files region out_file w in
            after.1 = Ok out
            ∧ files after.2 !! out = Some size
            ∧ run align_bams items ref_file assoc_files region out_file after.2
              = (Ok out, after.2)
            ∧ started (run align_bams items ref_file assoc_files region out_file) after.2
              = [])
         callers.
Proof.
  intros Hout Hdata Hstatus Hwritten Hsize.
  each_caller; cbn beta; intros Hin; cbn zeta.
  - apply run_tnscope_started in Hin
      as (out' & data' & license & paired & ? & _ & ? & _ & _ & _ & _ & _ & Hrun).
    simplify_eq. rewrite Hrun.
    destruct (launch_success data out _ w size Hstatus Hwritten Hsize)
      as (Hok & Hpresent & Hfile).
    split; [done |]. split; [done |].
    assert (run_tnscope align_bams items ref_file assoc_files region out_file
              (launch data out cmd w).2 = (Ok out, (launch data out cmd w).2)) as Hagain.
    { by rewrite run_tnscope_steps, Hout, Hpresent. }
    split; [done |]. apply started_same. by rewrite Hagain.
  - apply run_tnhaplotyper_started in Hin
      as (out' & data' & license & paired & ? & _ & ? & _ & _ & _ & _ & _ & Hrun).
    simplify_eq. rewrite Hrun.
    destruct (launch_success data out _ w size Hstatus Hwritten Hsize)
      as (Hok & Hpresent & Hfile).
    split; [done |]. split; [done |].
    assert (run_tnhaplotyper align_bams items ref_file assoc_files region out_file
              (launch data out cmd w).2 = (Ok out, (launch data out cmd w).2)) as Hagain.
    { by rewrite run_tnhaplotyper_steps, Hout, Hpresent. }
    split; [done |]. apply started_same. by rewrite Hagain.
  - apply run_haplotyper_started in Hin
      as (out' & data' & license & ? & _ & ? & _ & _ & _ & Hrun).
    simplify_eq. rewrite Hrun.
    destruct (launch_success data out _ w size Hstatus Hwritten Hsize)
      as (Hok & Hpresent & Hfile).
    split; [done |]. split; [done |].
    assert (run_haplotyper align_bams items ref_file assoc_files region out_file
              (launch data out cmd w).2 = (Ok out, (launch data out cmd w).2)) as Hagain.
    { by rewrite run_haplotyper_steps, Hout, Hpresent. }
    split; [done |]. apply started_same. by rewrite Hagain.
Qed.

Lemma launch_ok data out cmd w (p : string) :
  (launch data out cmd w).1 = Ok p →
  p = out ∧ exit_status (shell cmd (files w)) = 0.
Proof.
  unfold launch. destruct (exit_status _ =? 0) eqn:Hstatus; [| done].
  intros [= <-]. split; [done | by apply Z.eqb_eq].
Qed.

Lemma success_cases (m : M string) w (p out : string) :
  (m w = (Ok out, w) ∨ ∃ data cmd, m w = launch data out cmd w) →
  (m w).1 = Ok p →
  p = out
  ∧ ((m w).2 = w
     ∨ ∃ cmd, started m w = [(cmd, "Sentieon TNhaplotyper")]
              ∧ exit_status (shell cmd (files w)) = 0).
Proof.
  intros [Hquiet | (data & cmd & Hlaunch)] Hp.
  - rewrite Hquiet in Hp |- *. injection Hp as <-. split; [done | by left].
  - rewrite Hlaunch in Hp. apply launch_ok in Hp as [-> Hstatus].
    split; [done |]. right. exists cmd. split; [| done].
    apply started_one. rewrite Hlaunch. apply launch_runs.
Qed.

(** X7. A caller returns normally only with the resolved output path, and
    only in two ways: the output was already there and the world is left as
    it was, or the one process it started exited with status 0. *)
Theorem success_needs_output_or_clean_exit
    align_bams items ref_file assoc_files region out_file w :
  Forall (λ run,
            ∀ p, (run align_bams items ref_file assoc_files region out_file w).1 = Ok p →
                 resolved_out_file align_bams out_file = Some p
                 ∧ ((present w p = true
                     ∧ (run align_bams items ref_file assoc_files region out_file w).2 = w)
                    ∨ ∃ cmd,
                        started (run align_bams items ref_file assoc_files region out_file) w
                        = [(cmd, "Sentieon TNhaplotyper")]
                        ∧ exit_status (shell cmd (files w)) = 0))
         callers.
Proof.
  each_caller; intros p Hp.
  - pose proof (run_tnscope_steps align_bams items ref_file assoc_files region out_file w)
      as Hsteps.
    destruct (resolved_out_file align_bams out_file) as [out|]; [| by rewrite Hsteps in Hp].
    destruct (present w out) eqn:Hpresent.
    { rewrite Hsteps in Hp |- *. injection Hp as <-. split; [done | by left]. }
    destruct items as [|data rest]; [by rewrite Hsteps in Hp |]. cbn zeta in Hsteps.
    destruct (get_paired_bams _ _) as [paired|]; [| by rewrite Hsteps in Hp].
    destruct (truthy_scalar _); [| by rewrite Hsteps in Hp].
    destruct (license_export data) as [license|e]; [| by rewrite Hsteps in Hp].
    destruct (success_cases _ w p out (or_intror (ex_intro _ _ (ex_intro _ _ Hsteps))) Hp)
      as [-> [Hsame | Hrun]]; (split; [done |]); [| by right].
    right. rewrite Hsteps in Hp. apply launch_ok in Hp as [_ Hstatus].
    eexists. split; [| exact Hstatus].
    apply started_one. rewrite Hsteps. apply launch_runs.
  - pose proof (run_tnhaplotyper_steps align_bams items ref_file assoc_files region
                  out_file w) as Hsteps.
    destruct (resolved_out_file align_bams out_file) as [out|]; [| by rewrite Hsteps in Hp].
    destruct (present w out) eqn:Hpresent.
    { rewrite Hsteps in Hp |- *. injection Hp as <-. split; [done | by left]. }
    destruct items as [|data rest]; [by rewrite Hsteps in Hp |]. cbn zeta in Hsteps.
    destruct (get_paired_bams _ _) as [paired|]; [| by rewrite Hsteps in Hp].
    destruct (truthy_scalar _); [| by rewrite Hsteps in Hp].
    destruct (license_export data) as [license|e]; [| by rewrite Hsteps in Hp].
    destruct (success_cases _ w p out (or_intror (ex_intro _ _ (ex_intro _ _ Hsteps))) Hp)
      as [-> [Hsame | Hrun]]; (split; [done |]); [| by right].
    right. rewrite Hsteps in Hp. apply launch_ok in Hp as [_ Hstatus].
    eexists. split; [| exact Hstatus].
    apply started_one. rewrite Hsteps. apply launch_runs.
  - pose proof (run_haplotyper_steps align_bams items ref_file assoc_files region
                  out_file w) as Hsteps.
    destruct (resolved_out_file align_bams out_file) as [out|]; [| by rewrite Hsteps in Hp].
    destruct (present w out) eqn:Hpresent.
    { rewrite Hsteps in Hp |- *. injection Hp as <-. split; [done | by left]. }
    destruct items as [|data rest]; [by rewrite Hsteps in Hp |]. cbn zeta in Hsteps.
    destruct (license_export data) as [license|e]; [| by rewrite Hsteps in Hp].
    destruct (success_cases _ w p out (or_intror (ex_intro _ _ (ex_intro _ _ Hsteps))) Hp)
      as [-> [Hsame | Hrun]]; (split; [done |]); [| by right].
    right. rewrite Hsteps in Hp. apply launch_ok in Hp as [_ Hstatus].
    eexists. split; [| exact Hstatus].
    apply started_one. rewrite Hsteps. apply launch_runs.
Qed.

Lemma launch_not_quiet (m : M string) w data out cmd :
  m w = launch data out cmd w → started m w ≠ [].
Proof.
  intros Hm. rewrite (started_one m w (cmd, "Sentieon TNhaplotyper")); [done |].
  rewrite Hm. apply launch_runs.
Qed.

(** X8. A call that starts no process either leaves the world exactly as
    it was, or it raises from inside the transaction and the only change
    is that the transaction's temporary path is discarded. *)
Theorem quiet_call_touches_only_temp
    align_bams items ref_file assoc_files region out_file w :
  Forall (λ run,
            started (run align_bams items ref_file assoc_files region out_file) w = [] →
            (run align_bams items ref_file assoc_files region out_file w).2 = w
            ∨ ∃ data out e,
                head items = Some data
                ∧ resolved_out_file align_bams out_file = Some out
                ∧ run align_bams items ref_file assoc_files region out_file w
                  = (Raise e, discard (tx_tmp_path data out) w))
         callers.
Proof.
  each_caller; intros Hquiet.
  - pose proof (run_tnscope_steps align_bams items ref_file assoc_files region out_file w)
      as Hsteps.
    destruct (resolved_out_file align_bams out_file) as [out|]; [| left; by rewrite Hsteps].
    destruct (present w out); [left; by rewrite Hsteps |].
    destruct items as [|data rest]; [left; by rewrite Hsteps |]. cbn zeta in Hsteps.
    destruct (get_paired_bams _ _) as [paired|]; [| right; by eexists data, out, _].
    destruct (truthy_scalar _); [| right; by eexists data, out, _].
    destruct (license_export data) as [license|e]; [| right; by eexists data, out, _].
    by destruct (launch_not_quiet _ _ _ _ _ Hsteps).
  - pose proof (run_tnhaplotyper_steps align_bams items ref_file assoc_files region
                  out_file w) as Hsteps.
    destruct (resolved_out_file align_bams out_file) as [out|]; [| left; by rewrite Hsteps].
    destruct (present w out); [left; by rewrite Hsteps |].
    destruct items as [|data rest]; [left; by rewrite Hsteps |]. cbn zeta in Hsteps.
    destruct (get_paired_bams _ _) as [paired|]; [| right; by eexists data, out, _].
    destruct (truthy_scalar _); [| right; by eexists data, out, _].
    destruct (license_export data) as [license|e]; [| right; by eexists data, out, _].
    by destruct (launch_not_quiet _ _ _ _ _ Hsteps).
  - pose proof (run_haplotyper_steps align_bams items ref_file assoc_files region
                  out_file w) as Hsteps.
    destruct (resolved_out_file align_bams out_file) as [out|]; [| left; by rewrite Hsteps].
    destruct (present w out); [left; by rewrite Hsteps |].
    destruct items as [|data rest]; [left; by rewrite Hsteps |]. cbn zeta in Hsteps.
    destruct (license_export data) as [license|e]; [| right; by eexists data, out, _].
    by destruct (launch_not_quiet _ _ _ _ _ Hsteps).
Qed.

Lemma last_word_is_tmp (cmd tx out : string) :
  last (split_space cmd) = last (split_space tx) →
  no_space tx = true →
  last (split_space cmd) = Some tx ∧ (tx ≠ out → last (split_space cmd) ≠ Some out).
Proof.
  intros -> Hword. rewrite (split_space_word _ Hword). cbn [last].
  split; [done |]. intros Hne [= Heq]. by apply Hne.
Qed.

(** X9. Every command of the three callers has the same frame: the license
    prefix of the first sample, then "sentieon driver -t 1 -r " and the
    reference, and at its end, after a blank, the transaction's temporary
    path for the resolved output. Its last blank-separated word is the last
    word of that temporary path; when the temporary path contains no blank
    it is the command's last argument, and the last argument is then not
    the final output path unless the temporary path is. *)
Theorem command_frame
    align_bams items ref_file assoc_files region out_file w (cmd label : string) :
  Forall (λ run,
            (cmd, label)
              ∈ started (run align_bams items ref_file assoc_files region out_file) w →
            ∃ out data license middle,
              resolved_out_file align_bams out_file = Some out
              ∧ head items = Some data
              ∧ license_export data = Ok license
              ∧ cmd = (license +:+ "sentieon driver -t 1 -r " +:+ ref_file +:+ " "
                       +:+ middle) +:+ " " +:+ tx_tmp_path data out
              ∧ last (split_space cmd) = last (split_space (tx_tmp_path data out))
              ∧ (no_space (tx_tmp_path data out) = true →
                 last (split_space cmd) = Some (tx_tmp_path data out)
                 ∧ (tx_tmp_path data out ≠ out → last (split_space cmd) ≠ Some out)))
         callers.
Proof.
  each_caller; cbn beta; intros Hin.
  - apply run_tnscope_started in Hin
      as (out & data & license & paired & ? & _ & ? & _ & _ & ? & -> & _ & _).
    exists out, data, license,
      ("-i " +:+ py_str (tumor_bam paired) +:+ " -i " +:+ py_str (normal_bam paired)
       +:+ " "
       +:+ interval_at (merge_overlaps (get_variant_regions data) data) region out items w
       +:+ " --algo TNscope --tumor_sample " +:+ py_str (tumor_name paired)
       +:+ " --normal_sample " +:+ py_str (normal_name paired) +:+ " "
       +:+ dbsnp_flag assoc_files).
    do 3 (split; [done |]).
    split; [unfold tnscope_cmd; rewrite !sapp_assoc; reflexivity |].
    split; [apply tnscope_cmd_last_word |].
    apply last_word_is_tmp, tnscope_cmd_last_word.
  - apply run_tnhaplotyper_started in Hin
      as (out & data & license & paired & ? & _ & ? & _ & _ & ? & -> & _ & _).
    exists out, data, license,
      ("-i " +:+ py_str (tumor_bam paired) +:+ " -i " +:+ py_str (normal_bam paired)
       +:+ " "
       +:+ interval_at (merge_overlaps (get_variant_regions data) data) region out items w
       +:+ " --algo TNhaplotyper --tumor_sample " +:+ py_str (tumor_name paired)
       +:+ " --normal_sample " +:+ py_str (normal_name paired) +:+ " "
       +:+ dbsnp_flag assoc_files +:+ " " +:+ cosmic_flag assoc_files).
    do 3 (split; [done |]).
    split; [unfold tnhaplotyper_cmd; rewrite !sapp_assoc; reflexivity |].
    split; [apply tnhaplotyper_cmd_last_word |].
    apply last_word_is_tmp, tnhaplotyper_cmd_last_word.
  - apply run_haplotyper_started in Hin
      as (out & data & license & ? & _ & ? & ? & -> & _ & _).
    exists out, data, license,
      (join " " ((λ x, "-i " +:+ x) <$> align_bams) +:+ " "
       +:+ interval_at (merge_overlaps (get_variant_regions data) data) region out items w
       +:+ " --algo Haplotyper " +:+ dbsnp_flag assoc_files).
    do 3 (split; [done |]).
    split; [unfold haplotyper_cmd; rewrite !sapp_assoc; reflexivity |].
    split; [apply haplotyper_cmd_last_word |].
    apply last_word_is_tmp, haplotyper_cmd_last_word.
Qed.

Lemma tnscope_cmd_fields body ref_file paired (interval dbsnp tx : string) :
  tnscope_cmd (body +:+ " ") ref_file paired interval dbsnp tx
  = join " " [body; "sentieon"; "driver"; "-t"; "1"; "-r"; ref_file;
              "-i"; py_str (tumor_bam paired); "-i"; py_str (normal_bam paired);
              interval; "--algo"; "TNscope";
              "--tumor_sample"; py_str (tumor_name paired);
              "--normal_sample"; py_str (normal_name paired);
              dbsnp; tx].
Proof. unfold tnscope_cmd. by rewrite sapp_assoc. Qed.

(** X10. Split at blanks, a command of a paired caller reads: the license
    words, sentieon driver -t 1 -r and the reference, -i and the tumor BAM,
    -i and the normal BAM (tumor first), the interval, --algo with TNscope
    or TNhaplotyper, --tumor_sample and --normal_sample with the sample
    names, the dbsnp flag (and for TNhaplotyper the cosmic flag), and the
    temporary output path. *)
Theorem paired_command_words
    align_bams items ref_file assoc_files region out_file w (cmd label : string) :
  ((cmd, label)
     ∈ started (run_tnscope align_bams items ref_file assoc_files region out_file) w →
   ∃ out data license paired,
     resolved_out_file align_bams out_file = Some out
     ∧ head items = Some data
     ∧ license_export data = Ok license
     ∧ get_paired_bams align_bams items = Some paired
     ∧ split_space cmd
       = removelast (split_space license)
         ++ ["sentieon"; "driver"; "-t"; "1"; "-r"] ++ split_space ref_file
         ++ ["-i"] ++ split_space (py_str (tumor_bam paired))
         ++ ["-i"] ++ split_space (py_str (normal_bam paired))
         ++ split_space (interval_at (merge_overlaps (get_variant_regions data) data)
                           region out items w)
         ++ ["--algo"; "TNscope"; "--tumor_sample"]
         ++ split_space (py_str (tumor_name paired))
         ++ ["--normal_sample"] ++ split_space (py_str (normal_name paired))
         ++ split_space (dbsnp_flag assoc_files)
         ++ split_space (tx_tmp_path data out))
  ∧ ((cmd, label)
       ∈ started (run_tnhaplotyper align_bams items ref_file assoc_files region out_file) w →
     ∃ out data license paired,
       resolved_out_file align_bams out_file = Some out
       ∧ head items = Some data
       ∧ license_export data = Ok license
       ∧ get_paired_bams align_bams items = Some paired
       ∧ split_space cmd
         = removelast (split_space license)
           ++ ["sentieon"; "driver"; "-t"; "1"; "-r"] ++ split_space ref_file
           ++ ["-i"] ++ split_space (py_str (tumor_bam paired))
           ++ ["-i"] ++ split_space (py_str (normal_bam paired))
           ++ split_space (interval_at (merge_overlaps (get_variant_regions data) data)
                             region out items w)
           ++ ["--algo"; "TNhaplotyper"; "--tumor_sample"]
           ++ split_space (py_str (tumor_name paired))
           ++ ["--normal_sample"] ++ split_space (py_str (normal_name paired))
           ++ split_space (dbsnp_flag assoc_files)
           ++ split_space (cosmic_flag assoc_files)
           ++ split_space (tx_tmp_path data out)).
Proof.
  split.
  - intros (out & data & license & paired & ? & _ & ? & ? & _ & Hlicense & -> & _ & _)
      %run_tnscope_started.
    exists out, data, license, paired. do 4 (split; [done |]).
    destruct (license_export_ends_blank data license Hlicense) as [body ->].
    rewrite tnscope_cmd_fields, split_space_join by done.
    cbn [flat_map]. rewrite (split_space_app body EmptyString).
    change (split_space EmptyString) with [EmptyString].
    rewrite removelast_last. simpl. by rewrite app_nil_r.
  - intros (out & data & license & paired & ? & _ & ? & ? & _ & Hlicense & -> & _ & _)
      %run_tnhaplotyper_started.
    exists out, data, license, paired. do 4 (split; [done |]).
    destruct (license_export_ends_blank data license Hlicense) as [body ->].
    rewrite tnhaplotyper_cmd_fields, split_space_join by done.
    cbn [flat_map]. rewrite (split_space_app body EmptyString).
    change (split_space EmptyString) with [EmptyString].
    rewrite removelast_last. simpl. by rewrite app_nil_r.
Qed.

End CallerFacts.

(** * The properties on concrete runs *)

Lemma license_export_mapping_witness :
  resources_get (@get_resources Sample.working "sentieon"
                   (@item_config Sample.working Sample.tumor)) "keyfile"
  = PDict [("sentieon_license", PStr "8990@srv")]
  ∧ [("sentieon_license", PStr "8990@srv")] ≠ []
  ∧ license_export (C := Sample.working) Sample.tumor
    = Ok "export SENTIEON_LICENSE=8990@srv && ".
Proof.
  split; [reflexivity |]. split; [done |].
  apply (license_export_mapping (C := Sample.working) Sample.tumor
           [("sentieon_license", PStr "8990@srv")]); [reflexivity | done | reflexivity].
Defined.

(** C1 as stated fails: for the keyfile mapping {"sentieon_license":
    "8990@srv"} the export is not "export SENTIEON_LICENSE=8990@SRV && ";
    the value keeps its case. *)
Lemma license_export_keeps_value_case :
  resources_get (@get_resources Sample.working "sentieon"
                   (@item_config Sample.working Sample.tumor)) "keyfile"
  = PDict [("sentieon_license", PStr "8990@srv")]
  ∧ license_export (C := Sample.working) Sample.tumor
    ≠ Ok "export SENTIEON_LICENSE=8990@SRV && ".
Proof. split; [reflexivity |]. vm_compute. intros Heq. by inversion Heq. Qed.

Lemma existing_output_short_circuits_witness :
  resolved_out_file (C := Sample.working) ["/x/done.bam"] None
  = Some "/x/done-variants.vcf.gz"
  ∧ present Sample.disk "/x/done-variants.vcf.gz" = true
  ∧ Forall (λ run,
              run ["/x/done.bam"] Sample.pair "/ref.fa" ∅ None None Sample.disk
              = (Ok "/x/done-variants.vcf.gz", Sample.disk)
              ∧ started (run ["/x/done.bam"] Sample.pair "/ref.fa" ∅ None None)
                  Sample.disk = [])
           (callers (C := Sample.working)).
Proof.
  split; [reflexivity |]. split; [reflexivity |].
  apply (existing_output_short_circuits (C := Sample.working)); reflexivity.
Defined.

Lemma derived_output_path_witness :
  resolved_out_file (C := Sample.working) Sample.pair_bams None
  = Some "/a/t-variants.vcf.gz"
  ∧ Forall (λ run,
              ∀ p, (run Sample.pair_bams Sample.pair "/ref.fa" ∅ None None Sample.disk).1
                   = Ok p → p = "/a/t-variants.vcf.gz")
           (callers (C := Sample.working))
  ∧ (run_tnscope (C := Sample.working) Sample.pair_bams Sample.pair "/ref.fa" ∅ None None
       Sample.disk).1 = Ok "/a/t-variants.vcf.gz".
Proof.
  destruct (derived_output_path (C := Sample.working) "/a/t.bam" ["/a/n.bam"]
              Sample.pair "/ref.fa" ∅ None Sample.disk) as (Hresolved & _ & Hcallers).
  split; [exact Hresolved |]. split; [| by vm_compute].
  eapply Forall_impl; [exact Hcallers |].
  intros run (_ & Hreturned & _). exact Hreturned.
Defined.

Lemma get_interval_fragment_witness :
  _get_interval (C := Sample.working) (TStr "/x/regions.bed") None
    "/a/t-variants.vcf.gz" Sample.pair Sample.disk
  = (Ok "--interval /x/regions.bed", Sample.disk)
  ∧ _get_interval (C := Sample.working) (TStr "/x/regions.bed") (Some ("chr1", 0, 100))
      "/a/t-variants.vcf.gz" Sample.pair Sample.disk
    = (Ok "--interval chr1:1-100", Sample.disk)
  ∧ _get_interval (C := Sample.working) TNone None
      "/a/t-variants.vcf.gz" Sample.pair Sample.disk
    = (Ok EmptyString, Sample.disk).
Proof.
  destruct (get_interval_fragment (C := Sample.working) (TStr "/x/regions.bed") None
              "/a/t-variants.vcf.gz" Sample.pair Sample.disk) as (_ & Hfile & _).
  destruct (get_interval_fragment (C := Sample.working) (TStr "/x/regions.bed")
              (Some ("chr1", 0, 100)) "/a/t-variants.vcf.gz" Sample.pair Sample.disk)
    as (_ & _ & Hregion).
  destruct (get_interval_fragment (C := Sample.working) TNone None
              "/a/t-variants.vcf.gz" Sample.pair Sample.disk) as (Hnone & _ & _).
  split; [| split].
  - apply (Hfile "/x/regions.bed"); [reflexivity | reflexivity |].
    exists 120%N. by vm_compute.
  - apply Hregion; [reflexivity | intros path Heq; discriminate Heq].
  - by apply Hnone.
Defined.



(** C2 as stated fails: an output file that exists but is empty does not
    stop the callers; each of them starts its process again. *)
Lemma empty_output_is_recomputed :
  resolved_out_file (C := Sample.working) Sample.pair_bams None
  = Some "/a/t-variants.vcf.gz"
  ∧ files Sample.stale_disk !! "/a/t-variants.vcf.gz" = Some 0%N
  ∧ (isfile "/a/t-variants.vcf.gz" Sample.stale_disk).1 = Ok true
  ∧ present Sample.stale_disk "/a/t-variants.vcf.gz" = false
  ∧ started (run_tnscope (C := Sample.working) Sample.pair_bams Sample.pair "/ref.fa" ∅
               None None) Sample.stale_disk
    = [(Sample.tnscope_line, "Sentieon TNhaplotyper")]
  ∧ Forall (λ run,
              started (run Sample.pair_bams Sample.pair "/ref.fa" ∅ None None)
                Sample.stale_disk ≠ [])
           (callers (C := Sample.working)).
Proof.
  split; [reflexivity |]. split; [by vm_compute |]. split; [by vm_compute |].
  split; [by vm_compute |]. split; [by vm_compute |].
  unfold callers. repeat apply Forall_cons_2; [| | | apply Forall_nil_2];
    by vm_compute.
Qed.

Lemma missing_keyfile_stops_before_process_witness :
  head [Sample.unlicensed; Sample.normal] = Some Sample.unlicensed
  ∧ truthy (resources_get (@get_resources Sample.working "sentieon"
                             (@item_config Sample.working Sample.unlicensed)) "keyfile")
    = false
  ∧ license_export (C := Sample.working) Sample.unlicensed
    = Raise (ValueError keyfile_msg)
  ∧ Forall (λ run,
              started (run Sample.pair_bams [Sample.unlicensed; Sample.normal] "/ref.fa"
                         ∅ None None) Sample.disk = []
              ∧ runs (run Sample.pair_bams [Sample.unlicensed; Sample.normal] "/ref.fa"
                        ∅ None None Sample.disk).2 = runs Sample.disk)
           (callers (C := Sample.working))
  ∧ (run_tnscope (C := Sample.working) Sample.pair_bams
       [Sample.unlicensed; Sample.normal] "/ref.fa" ∅ None None Sample.disk).1
    = Raise (ValueError keyfile_msg).
Proof.
  split; [reflexivity |]. split; [reflexivity |].
  destruct (missing_keyfile_stops_before_process (C := Sample.working) Sample.pair_bams
              [Sample.unlicensed; Sample.normal] "/ref.fa" ∅ None None Sample.disk
              Sample.unlicensed eq_refl eq_refl) as (Hlicense & Hquiet & Hreached).
  split; [exact Hlicense |]. split; [exact Hquiet |].
  destruct (Hreached "/a/t-variants.vcf.gz" eq_refl eq_refl) as (_ & Hpaired).
  exact (proj1 (Hpaired _ eq_refl eq_refl)).
Defined.

Lemma unpaired_input_raises_witness :
  resolved_out_file (C := Sample.working) ["/a/n.bam"] None = Some "/a/n-variants.vcf.gz"
  ∧ present Sample.disk "/a/n-variants.vcf.gz" = false
  ∧ head [Sample.normal] = Some Sample.normal
  ∧ @get_paired_bams Sample.working ["/a/n.bam"] [Sample.normal] = None
  ∧ (run_tnhaplotyper (C := Sample.working) ["/a/n.bam"] [Sample.normal] "/ref.fa" ∅
       None None Sample.disk).1
    = Raise (AttributeError "'NoneType' object has no attribute 'normal_bam'")
  ∧ (run_tnscope (C := Sample.working) ["/a/n.bam"] [Sample.normal] "/ref.fa" ∅
       None None Sample.disk).1
    = Raise (AssertionError "Require normal BAM for Sentieon TNscope").
Proof.
  split; [reflexivity |]. split; [reflexivity |]. split; [reflexivity |].
  split; [reflexivity |].
  destruct (unpaired_input_raises (C := Sample.working) ["/a/n.bam"] [Sample.normal]
              "/ref.fa" ∅ None None Sample.disk "/a/n-variants.vcf.gz" Sample.normal
              eq_refl eq_refl eq_refl eq_refl) as (Hhaplo & Hscope & _).
  split; [by rewrite Hhaplo | by rewrite Hscope].
Defined.

Lemma tnhaplotyper_assoc_flags_witness :
  (Sample.tnhaplotyper_line "/x/dbsnp.vcf", "Sentieon TNhaplotyper")
    ∈ started (run_tnhaplotyper (C := Sample.working) Sample.pair_bams Sample.pair
                 "/ref.fa" {[ "dbsnp" := PStr "/x/dbsnp.vcf" ]} None None) Sample.disk
  ∧ contains "--dbsnp /x/dbsnp.vcf" (Sample.tnhaplotyper_line "/x/dbsnp.vcf") = true
  ∧ contains "--cosmic" (Sample.tnhaplotyper_line "/x/dbsnp.vcf") = false.
Proof.
  assert ((Sample.tnhaplotyper_line "/x/dbsnp.vcf", "Sentieon TNhaplotyper")
            ∈ started (run_tnhaplotyper (C := Sample.working) Sample.pair_bams Sample.pair
                         "/ref.fa" {[ "dbsnp" := PStr "/x/dbsnp.vcf" ]} None None)
                Sample.disk) as Hin.
  { vm_compute. by left. }
  split; [exact Hin |].
  destruct (tnhaplotyper_assoc_flags (C := Sample.working) _ _ _ _ _ _ _ _ _ Hin)
    as (out & data & license & paired & Hout & Hdata & Hlicense & Hpaired & _
        & Hdbsnp & _ & Hcosmic & _).
  split; [by apply Hdbsnp |].
  destruct (Hcosmic eq_refl) as [_ Hfree]. apply Hfree.
  vm_compute in Hout, Hdata. injection Hout as <-. injection Hdata as <-.
  vm_compute in Hlicense, Hpaired. injection Hlicense as <-. injection Hpaired as <-.
  repeat (apply Forall_cons_2; [by vm_compute |]). apply Forall_nil_2.
Defined.

(** C7 as stated fails: with "dbsnp" bound to "/x/--cosmic.vcf" and no
    "cosmic" key, the command run_tnhaplotyper builds contains the substring
    "--cosmic". *)
Lemma tnhaplotyper_cosmic_inside_dbsnp_path :
  Sample.odd_assoc !! "dbsnp" = Some (PStr "/x/--cosmic.vcf")
  ∧ Sample.odd_assoc !! "cosmic" = None
  ∧ started (run_tnhaplotyper (C := Sample.working) Sample.pair_bams Sample.pair
               "/ref.fa" Sample.odd_assoc None None) Sample.disk
    = [(Sample.tnhaplotyper_line "/x/--cosmic.vcf", "Sentieon TNhaplotyper")]
  ∧ contains "--dbsnp /x/--cosmic.vcf" (Sample.tnhaplotyper_line "/x/--cosmic.vcf") = true
  ∧ contains "--cosmic" (Sample.tnhaplotyper_line "/x/--cosmic.vcf") = true.
Proof. repeat split; by vm_compute. Qed.

Lemma haplotyper_bam_flags_witness :
  Sample.pair_bams ≠ []
  ∧ (Sample.haplotyper_line, "Sentieon TNhaplotyper")
      ∈ started (run_haplotyper (C := Sample.working) Sample.pair_bams Sample.pair
                   "/ref.fa" {[ "dbsnp" := PNone ]} None None) Sample.disk
  ∧ split_space Sample.haplotyper_line
    = ["export"; "SENTIEON_LICENSE=8990@srv"; "&&"; "sentieon"; "driver"; "-t"; "1";
       "-r"; "/ref.fa"; "-i"; "/a/t.bam"; "-i"; "/a/n.bam";
       "--interval"; "/x/regions.bed"; "--algo"; "Haplotyper";
       "--dbsnp"; "None"; "/tx/a/t-variants.vcf.gz"].
Proof.
  assert ((Sample.haplotyper_line, "Sentieon TNhaplotyper")
            ∈ started (run_haplotyper (C := Sample.working) Sample.pair_bams Sample.pair
                         "/ref.fa" {[ "dbsnp" := PNone ]} None None) Sample.disk) as Hin.
  { vm_compute. by left. }
  assert (Sample.pair_bams ≠ []) as Hne by done.
  split; [exact Hne |]. split; [exact Hin |].
  destruct (haplotyper_bam_flags (C := Sample.working) Sample.pair_bams _ _ _ _ _ _ _ _
              Hne Hin)
    as (out & data & license & Hout & Hdata & Hlicense & _ & _ & _ & Hwords & _).
  rewrite Hwords.
  vm_compute in Hout, Hdata. injection Hout as <-. injection Hdata as <-.
  vm_compute in Hlicense. injection Hlicense as <-.
  by vm_compute.
Defined.

Lemma flag_follows_membership_witness :
  resolved_out_file (C := Sample.working) Sample.pair_bams None
  = Some "/a/t-variants.vcf.gz"
  ∧ present Sample.disk "/a/t-variants.vcf.gz" = false
  ∧ head Sample.pair = Some Sample.tumor
  ∧ license_export (C := Sample.working) Sample.tumor
    = Ok "export SENTIEON_LICENSE=8990@srv && "
  ∧ Sample.none_assoc !! "dbsnp" = Some PNone
  ∧ Sample.none_assoc !! "cosmic" = Some PNone
  ∧ (∃ cmd,
       started (run_haplotyper (C := Sample.working) Sample.pair_bams Sample.pair "/ref.fa"
                  Sample.none_assoc None None) Sample.disk
       = [(cmd, "Sentieon TNhaplotyper")]
       ∧ cmd = Sample.haplotyper_line
       ∧ contains "--dbsnp None" cmd = true)
  ∧ (∃ cmd,
       started (run_tnscope (C := Sample.working) Sample.pair_bams Sample.pair "/ref.fa"
                  Sample.none_assoc None None) Sample.disk
       = [(cmd, "Sentieon TNhaplotyper")]
       ∧ cmd = Sample.tnscope_line_none
       ∧ contains "--dbsnp None" cmd = true)
  ∧ (∃ cmd,
       started (run_tnhaplotyper (C := Sample.working) Sample.pair_bams Sample.pair
                  "/ref.fa" Sample.none_assoc None None) Sample.disk
       = [(cmd, "Sentieon TNhaplotyper")]
       ∧ cmd = Sample.tnhaplotyper_line_none
       ∧ contains "--cosmic None" cmd = true).
Proof.
  split; [reflexivity |]. split; [reflexivity |]. split; [reflexivity |].
  split; [reflexivity |]. split; [reflexivity |]. split; [reflexivity |].
  destruct (flag_follows_membership (C := Sample.working) Sample.pair_bams Sample.pair
              "/ref.fa" Sample.none_assoc None None Sample.disk "/a/t-variants.vcf.gz"
              Sample.tumor "export SENTIEON_LICENSE=8990@srv && "
              eq_refl eq_refl eq_refl eq_refl) as (Hdbsnp & Hcosmic & _).
  destruct (Hdbsnp PNone eq_refl) as (_ & Hhaplotyper & Hpaired).
  destruct (Hpaired _ eq_refl eq_refl) as (Hscope & _).
  destruct (Hcosmic PNone eq_refl) as (_ & Hhaplo).
  specialize (Hhaplo _ eq_refl eq_refl).
  split; [| split].
  - destruct Hhaplotyper as (cmd & Hstarted & Hcmd & Hcontains).
    exists cmd. split; [exact Hstarted |]. split; [| exact Hcontains].
    rewrite Hcmd. by vm_compute.
  - destruct Hscope as (cmd & Hstarted & Hcmd & Hcontains).
    exists cmd. split; [exact Hstarted |]. split; [| exact Hcontains].
    rewrite Hcmd. by vm_compute.
  - destruct Hhaplo as (cmd & Hstarted & Hcmd & Hcontains).
    exists cmd. split; [exact Hstarted |]. split; [| exact Hcontains].
    rewrite Hcmd. by vm_compute.
Defined.

Lemma license_export_shape_witness :
  license_export (C := Sample.working) Sample.normal
  = Ok "export SENTIEON_LICENSE=1234@license-server:8990 && "
  ∧ (∃ rest, "export SENTIEON_LICENSE=1234@license-server:8990 && " = "export " +:+ rest)
  ∧ (∃ body, "export SENTIEON_LICENSE=1234@license-server:8990 && " = body +:+ " && ").
Proof.
  split; [reflexivity |].
  apply (license_export_shape (C := Sample.working) Sample.normal). reflexivity.
Defined.

Lemma successful_run_is_idempotent_witness :
  resolved_out_file (C := Sample.working) Sample.pair_bams None
  = Some "/a/t-variants.vcf.gz"
  ∧ head Sample.pair = Some Sample.tumor
  ∧ exit_status (@shell Sample.working Sample.tnscope_line (files Sample.disk)) = 0
  ∧ files_after (@shell Sample.working Sample.tnscope_line (files Sample.disk))
      !! "/tx/a/t-variants.vcf.gz" = Some 4096%N
  ∧ (0 < 4096)%N
  ∧ (Sample.tnscope_line, "Sentieon TNhaplotyper")
      ∈ started (run_tnscope (C := Sample.working) Sample.pair_bams Sample.pair "/ref.fa"
                   ∅ None None) Sample.disk
  ∧ (run_tnscope (C := Sample.working) Sample.pair_bams Sample.pair "/ref.fa" ∅ None None
       Sample.disk).1 = Ok "/a/t-variants.vcf.gz"
  ∧ started (run_tnscope (C := Sample.working) Sample.pair_bams Sample.pair "/ref.fa" ∅
               None None)
      (run_tnscope (C := Sample.working) Sample.pair_bams Sample.pair "/ref.fa" ∅ None None
         Sample.disk).2 = [].
Proof.
  assert ((Sample.tnscope_line, "Sentieon TNhaplotyper")
            ∈ started (run_tnscope (C := Sample.working) Sample.pair_bams Sample.pair
                         "/ref.fa" ∅ None None) Sample.disk) as Hin.
  { vm_compute. by left. }
  assert (files_after (@shell Sample.working Sample.tnscope_line (files Sample.disk))
            !! "/tx/a/t-variants.vcf.gz" = Some 4096%N) as Hwritten by (by vm_compute).
  split; [reflexivity |]. split; [reflexivity |]. split; [reflexivity |].
  split; [exact Hwritten |]. split; [done |]. split; [exact Hin |].
  pose proof (successful_run_is_idempotent (C := Sample.working) Sample.pair_bams
                Sample.pair "/ref.fa" ∅ None None Sample.disk "/a/t-variants.vcf.gz"
                Sample.tumor Sample.tnscope_line "Sentieon TNhaplotyper" 4096%N
                eq_refl eq_refl eq_refl Hwritten eq_refl) as Hcallers.
  unfold callers in Hcallers. apply Forall_cons in Hcallers as [Hscope _].
  destruct (Hscope Hin) as (Hok & _ & _ & Hquiet).
  split; [exact Hok | exact Hquiet].
Defined.

Lemma paired_callers_require_normal_witness :
  resolved_out_file (C := Sample.working) ["/a/t.bam"] None = Some "/a/t-variants.vcf.gz"
  ∧ present Sample.disk "/a/t-variants.vcf.gz" = false
  ∧ head [Sample.tumor] = Some Sample.tumor
  ∧ @get_paired_bams Sample.working ["/a/t.bam"] [Sample.tumor]
    = Some {| tumor_bam := PStr "/a/t.bam"; tumor_name := PStr "T1";
              normal_bam := PNone; normal_name := PNone |}
  ∧ (run_tnscope (C := Sample.working) ["/a/t.bam"] [Sample.tumor] "/ref.fa" ∅ None None
       Sample.disk).1
    = Raise (AssertionError "Require normal BAM for Sentieon TNscope")
  ∧ (run_tnhaplotyper (C := Sample.working) ["/a/t.bam"] [Sample.tumor] "/ref.fa" ∅ None
       None Sample.disk).1
    = Raise (AssertionError "Require normal BAM for Sentieon TNhaplotyper").
Proof.
  split; [reflexivity |]. split; [reflexivity |]. split; [reflexivity |].
  split; [reflexivity |].
  destruct (paired_callers_require_normal (C := Sample.working) ["/a/t.bam"]
              [Sample.tumor] "/ref.fa" ∅ None None Sample.disk "/a/t-variants.vcf.gz"
              Sample.tumor
              {| tumor_bam := PStr "/a/t.bam"; tumor_name := PStr "T1";
                 normal_bam := PNone; normal_name := PNone |}
              eq_refl eq_refl eq_refl eq_refl eq_refl) as (Hscope & Hhaplo).
  split; [by rewrite Hscope | by rewrite Hhaplo].
Defined.
